(** * Statutory due-date computation of the bookkeeping backend

    A shallow embedding of the handler [GET /api/due-dates/:userId] of
    [src/server.js] (lines 1165-1283) together with the part of the
    ECMAScript [Date] semantics that the handler relies on.

    Conventions of the model.
    - A JavaScript [Date] is its time value: milliseconds since the epoch,
      UTC.  An invalid date (time value NaN) is [None].
    - The local time zone adjustment is a constant [tza] (milliseconds),
      shared by every local-time operation of one request.
    - JavaScript numbers that may be NaN are [option Z]; the other numbers of
      the handler are integers far below 2^53 and are plain [Z].
    - A nullable VARCHAR/ENUM column of the row is an [option string]. *)

From Stdlib Require Import ZArith List String Ascii Bool Lia DecimalString.
From Stdlib Require Import Permutation.
Import ListNotations.
Open Scope string_scope.
Open Scope Z_scope.

(** ** ECMAScript time values (ECMA-262, "Time Values and Time Range") *)

Module ES.

Definition msPerDay : Z := 86400000.
Definition maxTime : Z := 8640000000000000.

Definition Day (t : Z) : Z := t / msPerDay.

Definition DaysInYear (y : Z) : Z :=
  if negb (y mod 4 =? 0) then 365
  else if negb (y mod 100 =? 0) then 366
  else if negb (y mod 400 =? 0) then 365
  else 366.

Definition DayFromYear (y : Z) : Z :=
  365 * (y - 1970) + (y - 1969) / 4 - (y - 1901) / 100 + (y - 1601) / 400.

Definition TimeFromYear (y : Z) : Z := msPerDay * DayFromYear y.

(** ECMA-262 defines the year of a time value as the largest [y] with
    [TimeFromYear y <= t].  [YearFromDay] computes it: the estimate from the
    mean year length is off by at most one ([YearFromDay_spec] below). *)
Definition YearFromDay (d : Z) : Z :=
  let y0 := 1970 + (400 * d) / 146097 in
  if d <? DayFromYear y0 then y0 - 1
  else if DayFromYear (y0 + 1) <=? d then y0 + 1
  else y0.

Definition YearFromTime (t : Z) : Z := YearFromDay (Day t).

Definition InLeapYear (t : Z) : Z :=
  if DaysInYear (YearFromTime t) =? 366 then 1 else 0.

Definition DayWithinYear (t : Z) : Z :=
  Day t - DayFromYear (YearFromTime t).

(** The month table of ECMA-262, on the day within the year [d] and the
    leap-year flag [l]. *)
Definition monthOfDay (d l : Z) : Z :=
  if d <? 31 then 0
  else if d <? 59 + l then 1
  else if d <? 90 + l then 2
  else if d <? 120 + l then 3
  else if d <? 151 + l then 4
  else if d <? 181 + l then 5
  else if d <? 212 + l then 6
  else if d <? 243 + l then 7
  else if d <? 273 + l then 8
  else if d <? 304 + l then 9
  else if d <? 334 + l then 10
  else 11.

(** The leap-year flag of year [y]. *)
Definition leapFlag (y : Z) : Z := if DaysInYear y =? 366 then 1 else 0.

Definition MonthFromTime (t : Z) : Z :=
  monthOfDay (DayWithinYear t) (InLeapYear t).

(** The date table of ECMA-262. *)
Definition dateOfDay (d l m : Z) : Z :=
  if m =? 0 then d + 1
  else if m =? 1 then d - 30
  else if m =? 2 then d - 58 - l
  else if m =? 3 then d - 89 - l
  else if m =? 4 then d - 119 - l
  else if m =? 5 then d - 150 - l
  else if m =? 6 then d - 180 - l
  else if m =? 7 then d - 211 - l
  else if m =? 8 then d - 242 - l
  else if m =? 9 then d - 272 - l
  else if m =? 10 then d - 303 - l
  else d - 333 - l.

Definition DateFromTime (t : Z) : Z :=
  dateOfDay (DayWithinYear t) (InLeapYear t) (MonthFromTime t).

(** Day within the year of the first day of month [mn] (0..11). *)
Definition monthStart (mn l : Z) : Z :=
  if mn =? 0 then 0
  else if mn =? 1 then 31
  else if mn =? 2 then 59 + l
  else if mn =? 3 then 90 + l
  else if mn =? 4 then 120 + l
  else if mn =? 5 then 151 + l
  else if mn =? 6 then 181 + l
  else if mn =? 7 then 212 + l
  else if mn =? 8 then 243 + l
  else if mn =? 9 then 273 + l
  else if mn =? 10 then 304 + l
  else 334 + l.

(** [MakeDay year month date]: the day number of the first of month
    [month mod 12] of year [year + floor (month / 12)], plus [date - 1]. *)
Definition MakeDay (year month date : Z) : Z :=
  let ym := year + month / 12 in
  let mn := month mod 12 in
  let l := if DaysInYear ym =? 366 then 1 else 0 in
  DayFromYear ym + monthStart mn l + date - 1.

Definition MakeTime (hour min sec ms : Z) : Z :=
  hour * 3600000 + min * 60000 + sec * 1000 + ms.

Definition MakeDate (day time : Z) : Z := day * msPerDay + time.

Definition MakeFullYear (year : Z) : Z :=
  if (0 <=? year) && (year <=? 99) then 1900 + year else year.

Definition TimeClip (t : Z) : option Z :=
  if Z.abs t <=? maxTime then Some t else None.

Section LocalTime.
(** Offset of local time from UTC, in milliseconds. *)
Variable tza : Z.

Definition LocalTime (t : Z) : Z := t + tza.
Definition UTC (t : Z) : Z := t - tza.

(** [new Date(year, month, date)] *)
Definition Date_ymd (year month date : Z) : option Z :=
  let yr := MakeFullYear year in
  TimeClip (UTC (MakeDate (MakeDay yr month date) (MakeTime 0 0 0 0))).

(** [d.getFullYear()], [d.getMonth()] of a valid date *)
Definition getFullYear (t : Z) : Z := YearFromTime (LocalTime t).
Definition getMonth (t : Z) : Z := MonthFromTime (LocalTime t).

(** [d.getDate()]: NaN on an invalid date *)
Definition getDate (d : option Z) : option Z :=
  match d with
  | Some t => Some (DateFromTime (LocalTime t))
  | None => None
  end.
End LocalTime.

End ES.

(** ** JavaScript values and string operations used by the handler *)

(** Result of evaluating JavaScript code that may throw. *)
Inductive completion (A : Type) : Type :=
| Normal (a : A)
| Throw (e : string).
Arguments Normal {A} a.
Arguments Throw {A} e.

Definition bind {A B : Type} (c : completion A) (k : A -> completion B)
  : completion B :=
  match c with
  | Normal a => k a
  | Throw e => Throw e
  end.

Notation "x <- c ;; k" := (bind c (fun x => k))
  (at level 61, c at next level, right associativity).

(** Truthiness of a nullable string: [null] and [''] are falsy. *)
Definition truthy (v : option string) : bool :=
  match v with
  | Some s => negb (s =? "")%string
  | None => false
  end.

(** [v === lit] for a string literal [lit]. *)
Definition strictEq (v : option string) (lit : string) : bool :=
  match v with
  | Some s => (s =? lit)%string
  | None => false
  end.

(** [String.prototype.slice(start)] with one argument. *)
Definition String_slice (s : string) (start : Z) : string :=
  let len := Z.of_nat (String.length s) in
  let from := if start <? 0 then Z.max (len + start) 0 else Z.min start len in
  substring (Z.to_nat from) (Z.to_nat (len - from)) s.

(** [v.slice(start)]: a property access on [null] throws a TypeError. *)
Definition slice (v : option string) (start : Z) : completion string :=
  match v with
  | Some s => Normal (String_slice s start)
  | None => Throw "TypeError: Cannot read properties of null (reading 'slice')"
  end.

Definition isWhiteSpace (c : ascii) : bool :=
  let n := nat_of_ascii c in
  ((9 <=? n) && (n <=? 13))%nat || (n =? 32)%nat.

Fixpoint trimStart (s : string) : string :=
  match s with
  | String c r => if isWhiteSpace c then trimStart r else s
  | EmptyString => EmptyString
  end.

(** Value of a character as a digit of radix up to 36. *)
Definition digitValue (c : ascii) : option Z :=
  let n := Z.of_nat (nat_of_ascii c) in
  if (48 <=? n) && (n <=? 57) then Some (n - 48)
  else if (97 <=? n) && (n <=? 122) then Some (n - 87)
  else if (65 <=? n) && (n <=? 90) then Some (n - 55)
  else None.

(** Longest prefix of radix-[R] digits; [acc] is NaN until a digit is read. *)
Fixpoint parseDigits (R : Z) (s : string) (acc : option Z) : option Z :=
  match s with
  | String c r =>
      match digitValue c with
      | Some v =>
          if v <? R
          then
            let a := match acc with Some a => a | None => 0 end in
            parseDigits R r (Some (R * a + v))
          else acc
      | None => acc
      end
  | EmptyString => acc
  end.

(** [parseInt(string)] without a radix argument. *)
Definition parseInt (input : string) : option Z :=
  let trimmed := trimStart input in
  let '(sign, unsigned) :=
    match trimmed with
    | String "-" r => (-1, r)
    | String "+" r => (1, r)
    | _ => (1, trimmed)
    end in
  let '(R, digits) :=
    match unsigned with
    | String "0" (String x r) =>
        if (Ascii.eqb x "x" || Ascii.eqb x "X")%bool then (16, r)
        else (10, unsigned)
    | _ => (10, unsigned)
    end in
  match parseDigits R digits None with
  | Some n => Some (sign * n)
  | None => None
  end.

(** [String(n)] and [`${n}`] for an integer, and for NaN. *)
Definition String_of (n : Z) : string := NilZero.string_of_int (Z.to_int n).

Definition String_of_number (n : option Z) : string :=
  match n with
  | Some z => String_of z
  | None => "NaN"
  end.

(** Filler of [padStart]: [padString] repeated, cut to [n] characters. *)
Fixpoint filler (padString cur : string) (n : nat) : string :=
  match n with
  | O => EmptyString
  | S k =>
      match cur with
      | String c r => String c (filler padString r k)
      | EmptyString =>
          match padString with
          | String c r => String c (filler padString r k)
          | EmptyString => EmptyString
          end
      end
  end.

Definition padStart (s : string) (targetLength : nat) (padString : string)
  : string :=
  (filler padString padString (targetLength - String.length s) ++ s)%string.

(** Comparisons of a possibly-NaN number with an integer: false on NaN. *)
Definition geNum (a : option Z) (b : Z) : bool :=
  match a with
  | Some x => b <=? x
  | None => false
  end.

Definition leNum (a : option Z) (b : Z) : bool :=
  match a with
  | Some x => x <=? b
  | None => false
  end.

(** Two decimal digits [a], [b] read as a number. *)
Definition decimal2 (a b : ascii) : option Z :=
  match digitValue a, digitValue b with
  | Some x, Some y => if (x <? 10) && (y <? 10) then Some (10 * x + y) else None
  | _, _ => None
  end.

(** [new Date(string)] on the date-only form [YYYY-MM-DD] of the ECMAScript
    date-time string format, which is read as UTC midnight.  Every other
    string is mapped to an invalid date: what an engine makes of a string
    outside the format is implementation-defined, and the handler builds
    only strings of this form, for days that exist, when the year has four
    digits. *)
Definition Date_parse (s : string) : option Z :=
  match s with
  | String y1 (String y2 (String y3 (String y4 (String "-"
      (String m1 (String m2 (String "-" (String d1 (String d2 EmptyString)))))))))
    =>
      match decimal2 y1 y2, decimal2 y3 y4, decimal2 m1 m2, decimal2 d1 d2 with
      | Some yh, Some yl, Some m, Some d =>
          if (1 <=? m) && (m <=? 12) && (1 <=? d) && (d <=? 31)
          then ES.TimeClip
                 (ES.MakeDate (ES.MakeDay (100 * yh + yl) (m - 1) d)
                              (ES.MakeTime 0 0 0 0))
          else None
      | _, _, _, _ => None
      end
  | _ => None
  end.

(** [a >= b] on two dates, the right one valid: compares time values. *)
Definition Date_ge (a : option Z) (b : Z) : bool := geNum a b.

(** [Math.ceil(a / b)] for integers [a] and [b > 0]. *)
Definition Math_ceil_div (a b : Z) : Z := - ((- a) / b).

(** ** The handler of [GET /api/due-dates/:userId] *)

(** The columns of a [personal_info] row that the handler reads
    ([employment_status] is a nullable ENUM, the numbers are nullable
    VARCHAR(20), see the CREATE TABLE statement of [src/server.js]). *)
Record personal_info : Type := mkInfo {
  employment_status : option string;
  philhealth_number : option string;
  sss_number : option string;
  pagibig_number : option string
}.

(** An element of the [dueDates] array. *)
Record DueDate : Type := mkDueDate {
  agency : string;
  description : string;
  dueDate : string;
  membershipNumber : option string
}.

(** The object returned by [getFirstDayOfNextQuarter]. *)
Record YMD : Type := mkYMD { year : Z; month : Z; day : Z }.

(** [dueDates.push(e)] *)
Definition push (dueDates : list DueDate) (e : DueDate) : list DueDate :=
  dueDates ++ [e].

(** [String(n).padStart(2, '0')] *)
Definition pad2 (n : Z) : string := padStart (String_of n) 2 "0".

Definition pad2_number (n : option Z) : string :=
  padStart (String_of_number n) 2 "0".

Section Handler.
(** Local time zone adjustment of the server, and [const now = new Date()]. *)
Variables (tza now : Z).

Definition currentMonth : Z := ES.getMonth tza now + 1.
Definition currentYear : Z := ES.getFullYear tza now.

Definition getLastDayOfMonth (year month : Z) : option Z :=
  ES.getDate tza (ES.Date_ymd tza year month 0).

Definition getFirstDayOfNextQuarter (y m : Z) : YMD :=
  let quarter := Math_ceil_div m 3 in
  let nextQuarter := if quarter =? 4 then 1 else quarter + 1 in
  let nextYear := if quarter =? 4 then y + 1 else y in
  let firstMonthOfQuarter := (nextQuarter - 1) * 3 + 1 in
  {| year := nextYear; month := firstMonthOfQuarter; day := 1 |}.

(** Lines 1199-1223. *)
Definition philhealthBlock (userInfo : personal_info)
    (dueDates : list DueDate) : completion (list DueDate) :=
  if truthy (philhealth_number userInfo) then
    if strictEq (employment_status userInfo) "employed" then
      lastChar <- slice (philhealth_number userInfo) (-1) ;;
      let lastDigit := parseInt lastChar in
      let dueDay := if geNum lastDigit 1 && leNum lastDigit 5 then 15 else 20 in
      let nextMonth := if currentMonth =? 12 then 1 else currentMonth + 1 in
      let dueYear :=
        if currentMonth =? 12 then currentYear + 1 else currentYear in
      Normal (push dueDates
        {| agency := "PhilHealth";
           description :=
             "PhilHealth contribution payment (Employed) - Form PMRF, ER2";
           dueDate :=
             String_of dueYear ++ "-" ++ pad2 nextMonth ++ "-" ++ pad2 dueDay;
           membershipNumber := philhealth_number userInfo |})
    else if strictEq (employment_status userInfo) "self-employed" then
      let lastDay := getLastDayOfMonth currentYear currentMonth in
      Normal (push dueDates
        {| agency := "PhilHealth";
           description :=
             "PhilHealth contribution payment (Self-employed) - Form PMRF, PPP5";
           dueDate :=
             String_of currentYear ++ "-" ++ pad2 currentMonth ++ "-"
               ++ pad2_number lastDay;
           membershipNumber := philhealth_number userInfo |})
    else Normal dueDates
  else Normal dueDates.

(** Lines 1226-1242. *)
Definition sssBlock (userInfo : personal_info)
    (dueDates : list DueDate) : completion (list DueDate) :=
  if truthy (sss_number userInfo) then
    let nextMonth := if currentMonth =? 12 then 1 else currentMonth + 1 in
    let dueYear :=
      if currentMonth =? 12 then currentYear + 1 else currentYear in
    let lastDay := getLastDayOfMonth dueYear nextMonth in
    let forms :=
      if strictEq (employment_status userInfo) "employed"
      then "Form R-1, R-1A, R-3"
      else "Form RS-1, RS-5" in
    Normal (push dueDates
      {| agency := "SSS";
         description :=
           "SSS contribution payment ("
             ++ (if strictEq (employment_status userInfo) "employed"
                 then "Employed" else "Self-employed")
             ++ ") - " ++ forms;
         dueDate :=
           String_of dueYear ++ "-" ++ pad2 nextMonth ++ "-"
             ++ pad2_number lastDay;
         membershipNumber := sss_number userInfo |})
  else Normal dueDates.

(** Lines 1245-1273. *)
Definition pagibigBlock (userInfo : personal_info)
    (dueDates : list DueDate) : completion (list DueDate) :=
  if truthy (pagibig_number userInfo) then
    if strictEq (employment_status userInfo) "employed"
       || strictEq (employment_status userInfo) "self-employed" then
      let nextMonth := if currentMonth =? 12 then 1 else currentMonth + 1 in
      let dueYear :=
        if currentMonth =? 12 then currentYear + 1 else currentYear in
      let forms :=
        if strictEq (employment_status userInfo) "employed"
        then "Form ER1, MDF, MRS"
        else "Form MDF, POF" in
      let dueDates := push dueDates
        {| agency := "Pag-IBIG";
           description :=
             "Pag-IBIG contribution payment ("
               ++ (if strictEq (employment_status userInfo) "employed"
                   then "Employed" else "Self-employed")
               ++ ") - " ++ forms;
           dueDate := String_of dueYear ++ "-" ++ pad2 nextMonth ++ "-10";
           membershipNumber := pagibig_number userInfo |} in
      if strictEq (employment_status userInfo) "self-employed" then
        let nextQuarter := getFirstDayOfNextQuarter currentYear currentMonth in
        Normal (push dueDates
          {| agency := "Pag-IBIG";
             description :=
               "Pag-IBIG contribution payment (Quarterly Option) - Form MDF, POF";
             dueDate :=
               String_of (year nextQuarter) ++ "-" ++ pad2 (month nextQuarter)
                 ++ "-" ++ pad2 (day nextQuarter);
             membershipNumber := pagibig_number userInfo |})
      else Normal dueDates
    else Normal dueDates
  else Normal dueDates.

(** The array [dueDates] as it stands at line 1274, before the filter. *)
Definition candidates (userInfo : personal_info) : completion (list DueDate) :=
  dueDates <- philhealthBlock userInfo [] ;;
  dueDates <- sssBlock userInfo dueDates ;;
  pagibigBlock userInfo dueDates.

(** The callback of [dueDates.filter], lines 1276-1279. *)
Definition notPast (d : DueDate) : bool :=
  let dueDateObj := Date_parse (dueDate d) in
  Date_ge dueDateObj now.

(** Lines 1178-1281: from the row to the array sent under [dueDates]. *)
Definition computeDueDates (userInfo : personal_info)
  : completion (list DueDate) :=
  dueDates <- candidates userInfo ;;
  let currentMonthDueDates := filter notPast dueDates in
  Normal currentMonthDueDates.

(** What [db.query] hands to the callback. *)
Inductive query_result : Type :=
| QueryError (message : string)
| QueryRows (results : list personal_info).

(** What the route does with the request. *)
Inductive response : Type :=
| Status500 (error : string)
| Json (dueDates : list DueDate)
| Uncaught (e : string).

(** Lines 1169-1282. *)
Definition handler (q : query_result) : response :=
  match q with
  | QueryError message => Status500 message
  | QueryRows [] => Json []
  | QueryRows (userInfo :: _) =>
      match computeDueDates userInfo with
      | Normal currentMonthDueDates => Json currentMonthDueDates
      | Throw e => Uncaught e
      end
  end.

End Handler.

(** ** The calendar in the words of the specification *)

Module Spec.

(** A year is a leap year when it is divisible by 4, except centuries not
    divisible by 400. *)
Definition leapYear (y : Z) : bool :=
  (y mod 4 =? 0) && (negb (y mod 100 =? 0) || (y mod 400 =? 0)).

(** Last calendar day of month [m] (1..12) of year [y], Gregorian. *)
Definition lastDayOfMonth (y m : Z) : Z :=
  if m =? 2 then (if leapYear y then 29 else 28)
  else if (m =? 4) || (m =? 6) || (m =? 9) || (m =? 11) then 30
  else 31.

(** Year and month of the month immediately following month [m] of [y]. *)
Definition followingYear (y m : Z) : Z := if m =? 12 then y + 1 else y.
Definition followingMonth (m : Z) : Z := if m =? 12 then 1 else m + 1.

(** Quarters are the months 1-3, 4-6, 7-9 and 10-12. *)
Definition quarterOf (m : Z) : Z :=
  if m <=? 3 then 1 else if m <=? 6 then 2 else if m <=? 9 then 3 else 4.

(** Year and first month of the quarter after the one containing [m]. *)
Definition nextQuarterYear (y m : Z) : Z :=
  if quarterOf m =? 4 then y + 1 else y.
Definition nextQuarterMonth (m : Z) : Z :=
  if quarterOf m =? 1 then 4
  else if quarterOf m =? 2 then 7
  else if quarterOf m =? 3 then 10
  else 1.

(** The civil date [y]-[m]-[d] as the string [YYYY-MM-DD]. *)
Definition isoDate (y m d : Z) : string :=
  String_of y ++ "-" ++ pad2 m ++ "-" ++ pad2 d.

(** Final character of a string. *)
Fixpoint finalChar (s : string) : option ascii :=
  match s with
  | EmptyString => None
  | String c EmptyString => Some c
  | String _ r => finalChar r
  end.

(** The character is one of the digits 1, 2, 3, 4, 5. *)
Definition oneToFive (c : ascii) : bool :=
  existsb (Ascii.eqb c) ["1"; "2"; "3"; "4"; "5"]%char.

End Spec.

(** The civil date of [now] in the server's time zone. *)
Definition asOfYear (tza now : Z) : Z := currentYear tza now.
Definition asOfMonth (tza now : Z) : Z := currentMonth tza now.
Definition asOfDay (tza now : Z) : Z := ES.DateFromTime (ES.LocalTime tza now).

(** The entries of one agency, in order. *)
Definition ofAgency (a : string) (l : list DueDate) : list DueDate :=
  filter (fun e => (agency e =? a)%string) l.

(** The Pag-IBIG entry pushed at lines 1265-1270. *)
Definition isQuarterlyOption (e : DueDate) : bool :=
  (agency e =? "Pag-IBIG")%string &&
  (description e =?
     "Pag-IBIG contribution payment (Quarterly Option) - Form MDF, POF")%string.

(** The Pag-IBIG entry pushed at lines 1255-1260. *)
Definition isPrimaryPagibig (e : DueDate) : bool :=
  (agency e =? "Pag-IBIG")%string && negb (isQuarterlyOption e).

(** The primary Pag-IBIG entry of lines 1255-1260, in the words of the
    specification: due on the 10th of the following month. *)
Definition primaryEntry (tza now : Z) (userInfo : personal_info)
    (num : string) : DueDate :=
  {| agency := "Pag-IBIG";
     description :=
       if strictEq (employment_status userInfo) "employed"
       then "Pag-IBIG contribution payment (Employed) - Form ER1, MDF, MRS"
       else "Pag-IBIG contribution payment (Self-employed) - Form MDF, POF";
     dueDate :=
       Spec.isoDate
         (Spec.followingYear (asOfYear tza now) (asOfMonth tza now))
         (Spec.followingMonth (asOfMonth tza now)) 10;
     membershipNumber := Some num |}.

(** The quarterly-option entry of lines 1265-1270: due on the first day of
    the next quarter. *)
Definition quarterlyEntry (tza now : Z) (num : string) : DueDate :=
  {| agency := "Pag-IBIG";
     description :=
       "Pag-IBIG contribution payment (Quarterly Option) - Form MDF, POF";
     dueDate :=
       Spec.isoDate
         (Spec.nextQuarterYear (asOfYear tza now) (asOfMonth tza now))
         (Spec.nextQuarterMonth (asOfMonth tza now)) 1;
     membershipNumber := Some num |}.

(** Readings of the server clock covered by the calendar theorems: a zone
    offset of at most a day, and a local year from 1970 to 9998, so that
    [new Date(year, month, 0)] neither reads the year as two-digit nor
    leaves the range of time values. *)
Definition wallClock (tza now : Z) : Prop :=
  Z.abs tza <= ES.msPerDay /\ 1970 <= currentYear tza now <= 9998.

(** Bounded universal check, for facts that are decided by evaluation. *)
Fixpoint rangeAll (f : Z -> bool) (lo : Z) (n : nat) : bool :=
  match n with
  | O => true
  | S k => f lo && rangeAll f (lo + 1) k
  end.

Definition isNumber (a : option Z) (b : Z) : bool :=
  match a with
  | Some x => x =? b
  | None => false
  end.

(** [String(y)] consists of four decimal digits that read as [y]. *)
Definition fourDigits (y : Z) : bool :=
  match String_of y with
  | String a (String b (String c (String d EmptyString))) =>
      isNumber (decimal2 a b) (y / 100) && isNumber (decimal2 c d) (y mod 100)
  | _ => false
  end.

(** [String(n).padStart(2, '0')] consists of two digits that read as [n]. *)
Definition twoDigits (n : Z) : bool :=
  match pad2 n with
  | String a (String b EmptyString) => isNumber (decimal2 a b) n
  | _ => false
  end.

(** ** Other routes of [src/server.js] and the upload configuration

    In this part a JavaScript string is the sequence of its code units, each
    an [ascii]; a database error carries its [message]. *)

(** [s.startsWith(p)] *)
Fixpoint String_startsWith (s p : string) {struct p} : bool :=
  match p with
  | EmptyString => true
  | String c p' =>
      match s with
      | String d s' => Ascii.eqb c d && String_startsWith s' p'
      | EmptyString => false
      end
  end.

(** [s.includes(p)] *)
Fixpoint String_includes (s p : string) : bool :=
  String_startsWith s p ||
  match s with
  | String _ s' => String_includes s' p
  | EmptyString => false
  end.

Fixpoint String_drop (n : nat) (s : string) : string :=
  match n, s with
  | S k, String _ s' => String_drop k s'
  | _, _ => s
  end.

(** [s.replace(pattern, replacement)] for a string pattern and a replacement
    without [$]: the first occurrence is replaced. *)
Fixpoint String_replace (s pattern replacement : string) : string :=
  if String_startsWith s pattern
  then replacement ++ String_drop (String.length pattern) s
  else match s with
       | String c s' => String c (String_replace s' pattern replacement)
       | EmptyString => EmptyString
       end.

(** What [db.query] hands to a callback: an error, or the rows. *)
Inductive query_rows (row : Type) : Type :=
| Failed (message : string)
| Rows (results : list row).
Arguments Failed {row} message.
Arguments Rows {row} results.

(** *** [GET /api/download/:documentId] (lines 1428-1509) *)

Module Download.

Record row : Type := mkRow { file_path : string; file_name : string }.

Inductive response : Type :=
| Status (code : Z) (error : string)
| Redirect (url : string)
| Legacy (r : row).

(** Lines 1463-1465. *)
Definition downloadUrl (cloudinaryUrl : string) : string :=
  if String_includes cloudinaryUrl "/upload/"
  then String_replace cloudinaryUrl "/upload/" "/upload/fl_attachment/"
  else cloudinaryUrl.

(** The callback of the query, lines 1436-1507; [inline] is
    [req.query.inline] when it is a string ([None] stands for every other
    value, none of which is [=== 'true']).  The branch for files kept on the local disk (lines
    1470-1505) works on the file system and is not traced further: the model
    ends it in [Legacy]. *)
Definition handler (inline : option string) (q : query_rows row) : response :=
  match q with
  | Failed message => Status 500 ("Database error: " ++ message)
  | Rows [] => Status 404 "Document not found in database"
  | Rows (r :: _) =>
      let cloudinaryUrl := file_path r in
      if String_startsWith cloudinaryUrl "http://"
         || String_startsWith cloudinaryUrl "https://"
      then
        if strictEq inline "true" then Redirect cloudinaryUrl
        else Redirect (downloadUrl cloudinaryUrl)
      else Legacy r
  end.

End Download.

(** *** [GET /api/documents/:clientId] (lines 1126-1160) *)

Module Documents.

(** A row of the query of line 1129. *)
Module DocumentRow.
Record t : Type := mk {
  id : Z;
  file_name : string;
  file_path : string;
  quarter : string;
  year : Z;
  uploaded_at : Z;
  form_name : string
}.
End DocumentRow.

(** An element of the arrays of the response. *)
Record document : Type := mkDocument {
  id : Z;
  fileName : string;
  fileURL : string;
  quarter : string;
  year : Z;
  uploadedAt : Z
}.

Definition toDocument (row : DocumentRow.t) : document :=
  {| id := DocumentRow.id row;
     fileName := DocumentRow.file_name row;
     fileURL := DocumentRow.file_path row;
     quarter := DocumentRow.quarter row;
     year := DocumentRow.year row;
     uploadedAt := DocumentRow.uploaded_at row |}.

(** The own properties of the object [documentsByForm], each key once, in
    the order of their creation (which is the order of enumeration except
    for keys that are array indices). *)
Definition object : Type := list (string * list document).

(** The properties every object literal inherits from [Object.prototype]. *)
Definition Object_prototype_keys : list string :=
  [ "constructor"; "__defineGetter__"; "__defineSetter__"; "hasOwnProperty";
    "__lookupGetter__"; "__lookupSetter__"; "isPrototypeOf";
    "propertyIsEnumerable"; "toString"; "valueOf"; "__proto__";
    "toLocaleString" ].

Definition inherited (k : string) : bool :=
  existsb (String.eqb k) Object_prototype_keys.

Fixpoint own (o : object) (k : string) : option (list document) :=
  match o with
  | [] => None
  | (k', v) :: o' => if (k' =? k)%string then Some v else own o' k
  end.

(** [o[k]]: an own array, a member of [Object.prototype], or [undefined]. *)
Inductive property : Type :=
| Own (v : list document)
| Inherited
| Undefined.

Definition get (o : object) (k : string) : property :=
  match own o k with
  | Some v => Own v
  | None => if inherited k then Inherited else Undefined
  end.

(** [o[k] = v] where [k] is an own property or is not inherited. *)
Fixpoint set (o : object) (k : string) (v : list document) : object :=
  match o with
  | [] => [(k, v)]
  | (k', v') :: o' =>
      if (k' =? k)%string then (k', v) :: o' else (k', v') :: set o' k v
  end.

(** The body of the [forEach] callback, lines 1145-1155. *)
Definition addRow (documentsByForm : object) (row : DocumentRow.t)
  : completion object :=
  let documentsByForm :=
    match get documentsByForm (DocumentRow.form_name row) with
    | Undefined => set documentsByForm (DocumentRow.form_name row) []
    | _ => documentsByForm
    end in
  match get documentsByForm (DocumentRow.form_name row) with
  | Own v =>
      Normal (set documentsByForm (DocumentRow.form_name row) (v ++ [toDocument row]))
  | Inherited =>
      Throw "TypeError: documentsByForm[row.form_name].push is not a function"
  | Undefined =>
      Throw "TypeError: Cannot read properties of undefined (reading 'push')"
  end.

(** [rows.forEach(...)] from the object [o]. *)
Fixpoint forEachRow (rows : list DocumentRow.t) (o : object) : completion object :=
  match rows with
  | [] => Normal o
  | row :: rows' => o' <- addRow o row ;; forEachRow rows' o'
  end.

Definition groupByForm (rows : list DocumentRow.t) : completion object :=
  forEachRow rows [].

Inductive response : Type :=
| Status500 (error : string)
| Json (documentsByForm : object)
| Uncaught (e : string).

Definition handler (q : query_rows DocumentRow.t) : response :=
  match q with
  | Failed message => Status500 message
  | Rows rows =>
      match groupByForm rows with
      | Normal documentsByForm => Json documentsByForm
      | Throw e => Uncaught e
      end
  end.

End Documents.

(** The documents of the rows of form [f], in the order of the rows. *)
Definition documentsOfForm (f : string) (rows : list Documents.DocumentRow.t)
  : list Documents.document :=
  map Documents.toDocument
    (filter (fun row => (Documents.DocumentRow.form_name row =? f)%string) rows).

(** The object is well formed when no key is listed twice, no key is a name
    inherited from [Object.prototype], and no array is empty. *)
Definition wellFormed (o : Documents.object) : Prop :=
  NoDup (map fst o) /\
  (forall k, Documents.inherited k = true -> Documents.own o k = None) /\
  (forall k, Documents.own o k <> Some []).

(** [o'] is [o] with the documents of [rows] added to their forms. *)
Definition grouped (o : Documents.object) (rows : list Documents.DocumentRow.t)
    (o' : Documents.object) : Prop :=
  forall f,
    Documents.own o' f
    = match Documents.own o f, documentsOfForm f rows with
      | None, [] => None
      | None, docs => Some docs
      | Some v, docs => Some (v ++ docs)%list
      end.

(** *** [GET /api/gross-records/:userId] (lines 685-719) *)

Module GrossRecords.

Section Handler.
(** The rows of [gross_records] and of [expenses]; the second table is
    not declared in the sources, so both row types are left open.  The
    columns compared at line 712 are integers. *)
Variables (gross_row expense_row : Type).
Variable id : gross_row -> Z.
Variable gross_record_id : expense_row -> Z.

(** An element of [data]: the record with its [expenses] property. *)
Record record_with_expenses : Type := mkData {
  record : gross_row;
  expenses : list expense_row
}.

(** Lines 711-713: [expenseRows.filter(exp => exp.gross_record_id ===
    record.id)]. *)
Definition expensesOf (expenseRows : list expense_row) (record : gross_row)
  : list expense_row :=
  filter (fun exp => gross_record_id exp =? id record) expenseRows.

(** Lines 709-714. *)
Definition attachExpenses (grossRows : list gross_row)
    (expenseRows : list expense_row) : list record_with_expenses :=
  map (fun record =>
         {| record := record; expenses := expensesOf expenseRows record |})
      grossRows.

Inductive response : Type :=
| Status500 (error : string)
| Json (data : list record_with_expenses).

(** The callback of line 694.  [expenseQuery recordIds] stands for the
    query of line 706 and what it hands to its callback. *)
Definition handler (grossResult : query_rows gross_row)
    (expenseQuery : list Z -> query_rows expense_row) : response :=
  match grossResult with
  | Failed message => Status500 message
  | Rows [] => Json []
  | Rows grossRows =>
      let recordIds := map id grossRows in
      match expenseQuery recordIds with
      | Failed message => Status500 message
      | Rows expenseRows => Json (attachExpenses grossRows expenseRows)
      end
  end.

End Handler.

Arguments record {gross_row expense_row} r.
Arguments expenses {gross_row expense_row} r.
Arguments mkData {gross_row expense_row} record expenses.
Arguments Status500 {gross_row expense_row} error.
Arguments Json {gross_row expense_row} data.
Arguments expensesOf {gross_row expense_row} id gross_record_id.
Arguments attachExpenses {gross_row expense_row} id gross_record_id.
Arguments handler {gross_row expense_row} id gross_record_id.

End GrossRecords.

(** *** The upload configuration required at line 9 ([config/cloudinary]) *)

Module Cloudinary.

(** A character of the class [a-zA-Z0-9-_]. *)
Definition inClass (c : ascii) : bool :=
  let n := nat_of_ascii c in
  (((97 <=? n) && (n <=? 122)) || ((65 <=? n) && (n <=? 90))
   || ((48 <=? n) && (n <=? 57)) || (n =? 45) || (n =? 95))%nat.

(** [s.replace(/[^a-zA-Z0-9-_]/g, '_')] *)
Fixpoint replaceOutsideClass (s : string) : string :=
  match s with
  | String c r => String (if inClass c then c else "_"%char) (replaceOutsideClass r)
  | EmptyString => EmptyString
  end.

(** [form_name ? form_name.replace(...) : 'general'] *)
Definition sanitizedFormName (form_name : option string) : string :=
  match form_name with
  | Some s => if (s =? "")%string then "general" else replaceOutsideClass s
  | None => "general"
  end.

(** [`${v}`] for a field of the request body that may be missing. *)
Definition template (v : option string) : string :=
  match v with
  | Some s => s
  | None => "undefined"
  end.

Definition folderPath (client_id form_name quarter year : option string)
  : string :=
  "viron-bookkeeping/client-" ++ template client_id ++ "/"
    ++ sanitizedFormName form_name ++ "/" ++ template year
    ++ "/Q" ++ template quarter.

Fixpoint allChars (f : ascii -> bool) (s : string) : bool :=
  match s with
  | String c r => f c && allChars f r
  | EmptyString => true
  end.

(** A character of the class [[^/.]]. *)
Definition notSlashDot (c : ascii) : bool :=
  negb (Ascii.eqb c "/" || Ascii.eqb c ".").

(** [/\.[^/.]+$/] matches at the start of [s]. *)
Definition extensionHere (s : string) : bool :=
  match s with
  | String c r =>
      Ascii.eqb c "." && negb (r =? "")%string && allChars notSlashDot r
  | EmptyString => false
  end.

(** [s.replace(/\.[^/.]+$/, '')]: the leftmost match, which runs to the end
    of the string, is removed. *)
Fixpoint removeExtension (s : string) : string :=
  if extensionHere s then EmptyString
  else match s with
       | String c r => String c (removeExtension r)
       | EmptyString => EmptyString
       end.

(** Lines 24-31 of the configuration. *)
Definition resourceType (mimetype : string) : string :=
  let resourceType := "auto" in
  if String_startsWith mimetype "image/" then "image"
  else if String_startsWith mimetype "video/" then "video"
  else "raw".

Record params_result : Type := mkParams {
  folder : string;
  resource_type : string;
  allowed_formats : list string;
  public_id : string;
  use_filename : bool;
  unique_filename : bool;
  overwrite : bool
}.

(** The [params] function of the storage; [dateNow] is [Date.now()]. *)
Definition params (dateNow : Z)
    (client_id form_name quarter year : option string)
    (mimetype originalname : string) : params_result :=
  {| folder := folderPath client_id form_name quarter year;
     resource_type := resourceType mimetype;
     allowed_formats :=
       ["jpg"; "jpeg"; "png"; "gif"; "pdf"; "doc"; "docx"; "xls"; "xlsx";
        "csv"; "txt"];
     public_id := String_of dateNow ++ "-" ++ removeExtension originalname;
     use_filename := true;
     unique_filename := true;
     overwrite := false |}.

Definition allowedMimes : list string :=
  [ "image/jpeg"; "image/jpg"; "image/png"; "image/gif"; "application/pdf";
    "application/msword";
    "application/vnd.openxmlformats-officedocument.wordprocessingml.document";
    "application/vnd.ms-excel";
    "application/vnd.openxmlformats-officedocument.spreadsheetml.sheet";
    "text/csv"; "text/plain" ].

(** [fileFilter]: [true] for [cb(null, true)], [false] for the error. *)
Definition fileFilter (mimetype : string) : bool :=
  existsb (String.eqb mimetype) allowedMimes.

End Cloudinary.

(** * Properties *)

(** ** The year, month and date of a time value *)

Module ESFacts.
Import ES.

Lemma DayFromYear_succ (y : Z) :
  DayFromYear (y + 1) = DayFromYear y + DaysInYear y.
Proof.
  unfold DayFromYear, DaysInYear.
  destruct (Z.eqb_spec (y mod 4) 0), (Z.eqb_spec (y mod 100) 0),
    (Z.eqb_spec (y mod 400) 0); cbn [negb];
    Z.to_euclidean_division_equations; lia.
Qed.

Lemma DaysInYear_cases (y : Z) : DaysInYear y = 365 \/ DaysInYear y = 366.
Proof.
  unfold DaysInYear.
  destruct (y mod 4 =? 0), (y mod 100 =? 0), (y mod 400 =? 0); cbn; auto.
Qed.

Lemma DayFromYear_mono (y y' : Z) :
  y <= y' -> DayFromYear y <= DayFromYear y'.
Proof.
  unfold DayFromYear. intros H. Z.to_euclidean_division_equations. lia.
Qed.

Lemma estimate_low (d : Z) :
  DayFromYear (1970 + (400 * d) / 146097 - 1) <= d.
Proof. unfold DayFromYear. Z.to_euclidean_division_equations. lia. Qed.

Lemma estimate_high (d : Z) :
  d < DayFromYear (1970 + (400 * d) / 146097 + 2).
Proof. unfold DayFromYear. Z.to_euclidean_division_equations. lia. Qed.

(** [YearFromDay d] is the year ECMA-262 defines: the one whose first day is
    the latest at or before [d]. *)
Lemma YearFromDay_spec (d : Z) :
  DayFromYear (YearFromDay d) <= d < DayFromYear (YearFromDay d + 1).
Proof.
  unfold YearFromDay.
  set (y0 := 1970 + (400 * d) / 146097).
  pose proof (estimate_low d) as Hl. pose proof (estimate_high d) as Hh.
  fold y0 in Hl, Hh.
  destruct (Z.ltb_spec d (DayFromYear y0)) as [H1 | H1].
  - replace (y0 - 1 + 1) with y0 by lia. lia.
  - destruct (Z.leb_spec (DayFromYear (y0 + 1)) d) as [H2 | H2].
    + replace (y0 + 1 + 1) with (y0 + 2) by lia. lia.
    + lia.
Qed.

Lemma YearFromDay_unique (d y : Z) :
  DayFromYear y <= d < DayFromYear (y + 1) -> YearFromDay d = y.
Proof.
  intros [Hlo Hhi].
  destruct (YearFromDay_spec d) as [Slo Shi].
  destruct (Z.lt_trichotomy (YearFromDay d) y) as [Hlt | [Heq | Hgt]]; auto.
  - pose proof (DayFromYear_mono (YearFromDay d + 1) y). lia.
  - pose proof (DayFromYear_mono (y + 1) (YearFromDay d)). lia.
Qed.

(** The characterisation of ECMA-262: [YearFromTime t] is the largest year
    whose start is not after [t]. *)
Lemma YearFromTime_spec (t : Z) :
  TimeFromYear (YearFromTime t) <= t < TimeFromYear (YearFromTime t + 1).
Proof.
  unfold TimeFromYear, YearFromTime.
  pose proof (YearFromDay_spec (Day t)) as H.
  unfold Day, msPerDay in *. Z.to_euclidean_division_equations. lia.
Qed.

Lemma YearFromTime_largest (t y : Z) :
  TimeFromYear y <= t -> y <= YearFromTime t.
Proof.
  intros H. destruct (Z.le_gt_cases y (YearFromTime t)) as [Hle | Hgt]; auto.
  pose proof (YearFromTime_spec t) as [_ Hs].
  pose proof (DayFromYear_mono (YearFromTime t + 1) y ltac:(lia)) as Hm.
  unfold TimeFromYear, msPerDay in *. lia.
Qed.

Lemma Day_of_days (n : Z) : Day (n * msPerDay) = n.
Proof. unfold Day, msPerDay. apply Z.div_mul. lia. Qed.

Lemma DayWithinYear_range (t : Z) :
  0 <= DayWithinYear t < DaysInYear (YearFromTime t).
Proof.
  unfold DayWithinYear, YearFromTime.
  pose proof (YearFromDay_spec (Day t)) as H.
  rewrite DayFromYear_succ in H. lia.
Qed.

Lemma monthOfDay_range (d l : Z) : 0 <= monthOfDay d l <= 11.
Proof.
  unfold monthOfDay.
  repeat match goal with |- context [if ?b then _ else _] => destruct b end;
    lia.
Qed.

Lemma MonthFromTime_range (t : Z) : 0 <= MonthFromTime t <= 11.
Proof. apply monthOfDay_range. Qed.

End ESFacts.

(** ** The last day of a month, as [new Date(year, month, 0).getDate()] *)

Module LastDay.
Import ES ESFacts.

Lemma leapFlag_leapYear (y : Z) :
  leapFlag y = if Spec.leapYear y then 1 else 0.
Proof.
  unfold leapFlag, DaysInYear, Spec.leapYear.
  destruct (y mod 4 =? 0), (y mod 100 =? 0), (y mod 400 =? 0); reflexivity.
Qed.

Lemma DaysInYear_leapFlag (y : Z) : DaysInYear y = 365 + leapFlag y.
Proof.
  unfold leapFlag.
  destruct (DaysInYear_cases y) as [H | H]; rewrite H; reflexivity.
Qed.

(** A time value on day [k] of year [y]. *)
Lemma within_year (t y k : Z) :
  Day t = DayFromYear y + k -> 0 <= k < DaysInYear y ->
  YearFromTime t = y /\ DayWithinYear t = k /\ InLeapYear t = leapFlag y.
Proof.
  intros HD Hk.
  assert (HY : YearFromTime t = y).
  { unfold YearFromTime. apply YearFromDay_unique.
    rewrite DayFromYear_succ. lia. }
  unfold DayWithinYear, InLeapYear, leapFlag. rewrite HY. repeat split. lia.
Qed.

(** The day before the first of month [m + 1] is the last of month [m]. *)
Lemma tables_before_monthStart (m l : Z) :
  1 <= m <= 11 -> l = 0 \/ l = 1 ->
  monthOfDay (monthStart m l - 1) l = m - 1 /\
  dateOfDay (monthStart m l - 1) l (m - 1) =
    if m =? 2 then 28 + l
    else if (m =? 4) || (m =? 6) || (m =? 9) || (m =? 11) then 30
    else 31.
Proof.
  intros Hm Hl.
  assert (Hc : m = 1 \/ m = 2 \/ m = 3 \/ m = 4 \/ m = 5 \/ m = 6 \/ m = 7
               \/ m = 8 \/ m = 9 \/ m = 10 \/ m = 11) by lia.
  destruct Hl; subst l;
    repeat (destruct Hc as [Hc | Hc]; [subst m; split; reflexivity | ]);
    subst m; split; reflexivity.
Qed.

Lemma tables_year_end (l : Z) :
  l = 0 \/ l = 1 ->
  monthOfDay (364 + l) l = 11 /\ dateOfDay (364 + l) l 11 = 31.
Proof. intros [H | H]; subst l; split; reflexivity. Qed.

Lemma leapFlag_cases (y : Z) : leapFlag y = 0 \/ leapFlag y = 1.
Proof. unfold leapFlag. destruct (DaysInYear y =? 366); auto. Qed.

Lemma monthStart_bounds (m l : Z) :
  1 <= m <= 11 -> l = 0 \/ l = 1 -> 31 <= monthStart m l <= 334 + l.
Proof.
  intros Hm Hl.
  assert (Hc : m = 1 \/ m = 2 \/ m = 3 \/ m = 4 \/ m = 5 \/ m = 6 \/ m = 7
               \/ m = 8 \/ m = 9 \/ m = 10 \/ m = 11) by lia.
  destruct Hl; subst l;
    repeat (destruct Hc as [Hc | Hc]; [subst m; cbv; split; discriminate | ]);
    subst m; cbv; split; discriminate.
Qed.

Lemma tables_at_monthStart (m l : Z) :
  0 <= m <= 11 -> l = 0 \/ l = 1 ->
  monthOfDay (monthStart m l) l = m /\ dateOfDay (monthStart m l) l m = 1 /\
  0 <= monthStart m l < 365 + l.
Proof.
  intros Hm Hl.
  assert (Hc : m = 0 \/ m = 1 \/ m = 2 \/ m = 3 \/ m = 4 \/ m = 5 \/ m = 6
               \/ m = 7 \/ m = 8 \/ m = 9 \/ m = 10 \/ m = 11) by lia.
  destruct Hl; subst l;
    repeat (destruct Hc as [Hc | Hc];
            [subst m; repeat split; discriminate | ]);
    subst m; repeat split; discriminate.
Qed.

(** [MakeDay] meets its definition in ECMA-262: the time value of its day
    for date 1 has the year, the month and the date asked for, and the other
    dates are counted from that day. *)
Lemma MakeDay_first (y m d : Z) :
  let t := MakeDate (MakeDay y m 1) (MakeTime 0 0 0 0) in
  YearFromTime t = y + m / 12 /\ MonthFromTime t = m mod 12 /\
  DateFromTime t = 1 /\ MakeDay y m d = Day t + d - 1.
Proof.
  intros t.
  assert (HD : Day t = MakeDay y m 1).
  { unfold t, MakeDate, MakeTime. rewrite Z.add_0_r. apply Day_of_days. }
  pose proof (Z.mod_pos_bound m 12 ltac:(lia)) as Hmn.
  pose proof (leapFlag_cases (y + m / 12)) as Hl.
  destruct (tables_at_monthStart (m mod 12) (leapFlag (y + m / 12))
              ltac:(lia) Hl) as (T1 & T2 & T3).
  assert (HM : MakeDay y m 1 =
               DayFromYear (y + m / 12)
               + monthStart (m mod 12) (leapFlag (y + m / 12))).
  { unfold MakeDay, leapFlag. cbv zeta. lia. }
  destruct (within_year t (y + m / 12)
              (monthStart (m mod 12) (leapFlag (y + m / 12))))
    as (HY & HW & HL).
  { lia. }
  { rewrite DaysInYear_leapFlag. lia. }
  unfold MonthFromTime, DateFromTime, MonthFromTime.
  rewrite HY, HW, HL, T1, T2. repeat split.
  rewrite HD. unfold MakeDay. lia.
Qed.

(** Day zero of the 0-based month [m] is the last day of the 1-based month
    [m] of the same year, and its date is the Gregorian month length. *)
Lemma day_zero (y m : Z) :
  1 <= m <= 12 ->
  let t := MakeDate (MakeDay y m 0) (MakeTime 0 0 0 0) in
  YearFromTime t = y /\ MonthFromTime t = m - 1 /\
  DateFromTime t = Spec.lastDayOfMonth y m.
Proof.
  intros Hm t.
  assert (HD : Day t = MakeDay y m 0).
  { unfold t, MakeDate, MakeTime. rewrite Z.add_0_r. apply Day_of_days. }
  pose proof (leapFlag_cases y) as Hl.
  pose proof (DaysInYear_leapFlag y) as Hdy.
  destruct (Z.eq_dec m 12) as [-> | Hne].
  - assert (HM : MakeDay y 12 0 = DayFromYear y + (364 + leapFlag y)).
    { unfold MakeDay. cbv zeta. change (12 / 12) with 1.
      change (12 mod 12) with 0. rewrite DayFromYear_succ.
      change (monthStart 0 _) with 0. lia. }
    destruct (within_year t y (364 + leapFlag y)) as (HY & HW & HL);
      [lia | lia |].
    destruct (tables_year_end (leapFlag y) Hl) as [T1 T2].
    unfold MonthFromTime, DateFromTime, MonthFromTime.
    rewrite HY, HW, HL, T1, T2. repeat split.
  - assert (Hdiv : m / 12 = 0) by (apply Z.div_small; lia).
    assert (Hmod : m mod 12 = m) by (apply Z.mod_small; lia).
    assert (HM : MakeDay y m 0
                 = DayFromYear y + (monthStart m (leapFlag y) - 1)).
    { unfold MakeDay, leapFlag. cbv zeta. rewrite Hdiv, Hmod, !Z.add_0_r. lia. }
    pose proof (monthStart_bounds m (leapFlag y) ltac:(lia) Hl) as Hb.
    destruct (within_year t y (monthStart m (leapFlag y) - 1))
      as (HY & HW & HL);
      [lia | lia |].
    destruct (tables_before_monthStart m (leapFlag y) ltac:(lia) Hl) as [T1 T2].
    unfold MonthFromTime, DateFromTime, MonthFromTime.
    rewrite HY, HW, HL, T1, T2. repeat split.
    unfold Spec.lastDayOfMonth. rewrite leapFlag_leapYear.
    destruct (m =? 2); [destruct (Spec.leapYear y); reflexivity | reflexivity].
Qed.

Lemma DayFromYear_1970 : DayFromYear 1970 = 0.
Proof. reflexivity. Qed.

Lemma DayFromYear_10001 : DayFromYear 10001 = 2933263.
Proof. reflexivity. Qed.

(** [getLastDayOfMonth] is the Gregorian month length on four-digit years. *)
Lemma getLastDayOfMonth_gregorian (tza y m : Z) :
  Z.abs tza <= msPerDay -> 1970 <= y <= 9999 -> 1 <= m <= 12 ->
  getLastDayOfMonth tza y m = Some (Spec.lastDayOfMonth y m).
Proof.
  intros Hz Hy Hm.
  unfold getLastDayOfMonth, Date_ymd.
  assert (HF : MakeFullYear y = y).
  { unfold MakeFullYear. destruct (Z.leb_spec y 99); [lia |].
    rewrite andb_false_r. reflexivity. }
  rewrite HF.
  destruct (day_zero y m Hm) as (HY & _ & HDt).
  set (t := MakeDate (MakeDay y m 0) (MakeTime 0 0 0 0)) in *.
  assert (Hrange : 0 <= Day t < 2933263).
  { pose proof (YearFromDay_spec (Day t)) as S. fold (YearFromTime t) in S.
    rewrite HY in S.
    pose proof (DayFromYear_mono 1970 y ltac:(lia)) as M1.
    pose proof (DayFromYear_mono (y + 1) 10001 ltac:(lia)) as M2.
    rewrite DayFromYear_1970 in M1. rewrite DayFromYear_10001 in M2. lia. }
  assert (Ht : 0 <= t < 2933263 * msPerDay).
  { unfold Day, msPerDay in *. Z.to_euclidean_division_equations. lia. }
  unfold TimeClip, UTC.
  destruct (Z.leb_spec (Z.abs (t - tza)) maxTime) as [Hc | Hc].
  - cbn [getDate]. unfold LocalTime.
    replace (t - tza + tza) with t by lia. rewrite HDt. reflexivity.
  - unfold msPerDay, maxTime in *. lia.
Qed.

End LastDay.

(** ** Strings: the last character and its reading by [parseInt] *)

Lemma finalChar_nonempty (s : string) :
  s <> "" -> exists c, Spec.finalChar s = Some c.
Proof.
  induction s as [| a r IH]; intros H; [congruence |].
  destruct r as [| b r'].
  - exists a. reflexivity.
  - destruct IH as [c Hc]; [discriminate |]. exists c. exact Hc.
Qed.

Lemma substring_final (s : string) (c : ascii) :
  Spec.finalChar s = Some c ->
  substring (String.length s - 1) 1 s = String c "".
Proof.
  induction s as [| a r IH]; intros H; [discriminate |].
  destruct r as [| b r'].
  - cbn in H. injection H as ->. reflexivity.
  - change (Spec.finalChar (String a (String b r')))
      with (Spec.finalChar (String b r')) in H.
    specialize (IH H). cbn [String.length] in *.
    rewrite Nat.sub_succ, Nat.sub_0_r in *. exact IH.
Qed.

Lemma String_slice_final (s : string) (c : ascii) :
  Spec.finalChar s = Some c -> String_slice s (-1) = String c "".
Proof.
  intros H. unfold String_slice.
  assert (Hlen : (1 <= String.length s)%nat).
  { destruct s; [discriminate | cbn; lia]. }
  change (-1 <? 0) with true. cbv iota.
  replace (Z.max (Z.of_nat (String.length s) + -1) 0)
    with (Z.of_nat (String.length s - 1)) by lia.
  rewrite Nat2Z.id.
  replace (Z.to_nat (Z.of_nat (String.length s) - Z.of_nat (String.length s - 1)))
    with 1%nat by lia.
  apply substring_final. exact H.
Qed.

(** On a one-character string [parseInt] yields a number from 1 to 5 exactly
    for the digits 1 to 5; every other character, digit or not, falls
    outside (NaN compares false). *)
Lemma lastDigit_oneToFive (c : ascii) :
  geNum (parseInt (String c "")) 1 && leNum (parseInt (String c "")) 5
  = Spec.oneToFive c.
Proof.
  destruct c as [[] [] [] [] [] [] [] []]; vm_compute; reflexivity.
Qed.

Lemma truthy_Some (s : string) : s <> "" -> truthy (Some s) = true.
Proof.
  intros H. unfold truthy.
  destruct (String.eqb_spec s ""); [contradiction | reflexivity].
Qed.

Lemma strictEq_true (v : option string) (lit : string) :
  strictEq v lit = true <-> v = Some lit.
Proof.
  destruct v as [s |]; cbn; [| split; discriminate].
  destruct (String.eqb_spec s lit); split; congruence.
Qed.

Lemma strictEq_false (v : option string) (lit : string) :
  strictEq v lit = false <-> v <> Some lit.
Proof.
  rewrite <- strictEq_true. destruct (strictEq v lit); split; congruence.
Qed.

(** ** The entries of one agency in a list *)

Lemma ofAgency_app (a : string) (l1 l2 : list DueDate) :
  (ofAgency a (l1 ++ l2) = ofAgency a l1 ++ ofAgency a l2)%list.
Proof. apply filter_app. Qed.

Lemma ofAgency_same (a : string) (l : list DueDate) :
  Forall (fun e => agency e = a) l -> ofAgency a l = l.
Proof.
  induction 1 as [| e l He _ IH]; [reflexivity |].
  cbn. rewrite He, String.eqb_refl. f_equal. exact IH.
Qed.

Lemma ofAgency_other (a b : string) (l : list DueDate) :
  a <> b -> Forall (fun e => agency e = b) l -> ofAgency a l = [].
Proof.
  intros Hab. induction 1 as [| e l He _ IH]; [reflexivity |].
  cbn. rewrite He. destruct (String.eqb_spec b a); [congruence | exact IH].
Qed.

Lemma ofAgency_filter (a : string) (f : DueDate -> bool) (l : list DueDate) :
  (List.length (ofAgency a (filter f l)) <= List.length (ofAgency a l))%nat.
Proof.
  unfold ofAgency. induction l as [| e l IH]; [reflexivity |].
  simpl. destruct (f e); simpl; destruct (agency e =? a)%string; simpl; lia.
Qed.

(** ** The three blocks of the handler *)

Section Blocks.
Variables (tza now : Z) (userInfo : personal_info).

Lemma asOfMonth_range : 1 <= asOfMonth tza now <= 12.
Proof.
  unfold asOfMonth, currentMonth, ES.getMonth.
  pose proof (ESFacts.MonthFromTime_range (ES.LocalTime tza now)). lia.
Qed.

Lemma philhealthBlock_employed (num : string) (c : ascii)
    (dueDates : list DueDate) :
  philhealth_number userInfo = Some num -> Spec.finalChar num = Some c ->
  employment_status userInfo = Some "employed" ->
  philhealthBlock tza now userInfo dueDates =
  Normal (dueDates ++
    [ {| agency := "PhilHealth";
         description :=
           "PhilHealth contribution payment (Employed) - Form PMRF, ER2";
         dueDate :=
           Spec.isoDate
             (Spec.followingYear (asOfYear tza now) (asOfMonth tza now))
             (Spec.followingMonth (asOfMonth tza now))
             (if Spec.oneToFive c then 15 else 20);
         membershipNumber := Some num |} ])%list.
Proof.
  intros Hn Hc He. unfold philhealthBlock. rewrite Hn, He.
  rewrite truthy_Some by (intros ->; discriminate).
  change (strictEq (Some "employed") "employed") with true. cbv iota.
  unfold slice, bind. rewrite (String_slice_final num c Hc).
  rewrite lastDigit_oneToFive. reflexivity.
Qed.

Lemma philhealthBlock_self (num : string) (dueDates : list DueDate) :
  philhealth_number userInfo = Some num -> num <> "" ->
  employment_status userInfo = Some "self-employed" ->
  philhealthBlock tza now userInfo dueDates =
  Normal (dueDates ++
    [ {| agency := "PhilHealth";
         description :=
           "PhilHealth contribution payment (Self-employed) - Form PMRF, PPP5";
         dueDate :=
           String_of (asOfYear tza now) ++ "-"
             ++ pad2 (asOfMonth tza now) ++ "-"
             ++ pad2_number
                  (getLastDayOfMonth tza (asOfYear tza now)
                     (asOfMonth tza now));
         membershipNumber := Some num |} ])%list.
Proof.
  intros Hn Hne He. unfold philhealthBlock. rewrite Hn, He.
  rewrite truthy_Some by exact Hne. reflexivity.
Qed.

Lemma philhealthBlock_other (dueDates : list DueDate) :
  employment_status userInfo <> Some "employed" ->
  employment_status userInfo <> Some "self-employed" ->
  philhealthBlock tza now userInfo dueDates = Normal dueDates.
Proof.
  intros H1 H2. unfold philhealthBlock.
  apply strictEq_false in H1, H2. rewrite H1, H2.
  destruct (truthy (philhealth_number userInfo)); reflexivity.
Qed.

Lemma philhealthBlock_falsy (dueDates : list DueDate) :
  truthy (philhealth_number userInfo) = false ->
  philhealthBlock tza now userInfo dueDates = Normal dueDates.
Proof. intros H. unfold philhealthBlock. rewrite H. reflexivity. Qed.

(** The block appends at most one entry, of agency PhilHealth, and never
    throws: [slice] is only reached on a non-null number. *)
Lemma philhealthBlock_shape :
  exists es,
    (forall dueDates,
        philhealthBlock tza now userInfo dueDates
        = Normal (dueDates ++ es)%list)
    /\ (List.length es <= 1)%nat
    /\ Forall (fun e => agency e = "PhilHealth") es.
Proof.
  unfold philhealthBlock.
  destruct (philhealth_number userInfo) as [num |] eqn:Hn;
    [| exists []; repeat split; [intros; rewrite app_nil_r; reflexivity
                               | cbn; lia | constructor]].
  destruct (truthy (Some num));
    [| exists []; repeat split; [intros; rewrite app_nil_r; reflexivity
                               | cbn; lia | constructor]].
  destruct (strictEq (employment_status userInfo) "employed").
  - unfold slice, bind, push. eexists [_]. repeat split.
    + cbn; lia.
    + repeat constructor.
  - destruct (strictEq (employment_status userInfo) "self-employed").
    + unfold push. eexists [_]. repeat split.
      * cbn; lia.
      * repeat constructor.
    + exists []. repeat split; [intros; rewrite app_nil_r; reflexivity
                               | cbn; lia | constructor].
Qed.

Lemma sssBlock_present (num : string) (dueDates : list DueDate) :
  sss_number userInfo = Some num -> num <> "" ->
  sssBlock tza now userInfo dueDates =
  Normal (dueDates ++
    [ {| agency := "SSS";
         description :=
           if strictEq (employment_status userInfo) "employed"
           then "SSS contribution payment (Employed) - Form R-1, R-1A, R-3"
           else "SSS contribution payment (Self-employed) - Form RS-1, RS-5";
         dueDate :=
           String_of
             (Spec.followingYear (asOfYear tza now) (asOfMonth tza now))
             ++ "-"
             ++ pad2 (Spec.followingMonth (asOfMonth tza now)) ++ "-"
             ++ pad2_number
                  (getLastDayOfMonth tza
                     (Spec.followingYear (asOfYear tza now)
                        (asOfMonth tza now))
                     (Spec.followingMonth (asOfMonth tza now)));
         membershipNumber := Some num |} ])%list.
Proof.
  intros Hn Hne. unfold sssBlock. rewrite Hn.
  rewrite truthy_Some by exact Hne.
  destruct (strictEq (employment_status userInfo) "employed"); reflexivity.
Qed.

Lemma sssBlock_falsy (dueDates : list DueDate) :
  truthy (sss_number userInfo) = false ->
  sssBlock tza now userInfo dueDates = Normal dueDates.
Proof. intros H. unfold sssBlock. rewrite H. reflexivity. Qed.

Lemma sssBlock_shape :
  exists es,
    (forall dueDates,
        sssBlock tza now userInfo dueDates = Normal (dueDates ++ es)%list)
    /\ (List.length es <= 1)%nat
    /\ Forall (fun e => agency e = "SSS") es.
Proof.
  unfold sssBlock.
  destruct (truthy (sss_number userInfo)).
  - unfold push. eexists [_]. repeat split.
    + cbn; lia.
    + repeat constructor.
  - exists []. repeat split; [intros; rewrite app_nil_r; reflexivity
                             | cbn; lia | constructor].
Qed.

End Blocks.

Lemma getFirstDayOfNextQuarter_spec (y m : Z) :
  1 <= m <= 12 ->
  getFirstDayOfNextQuarter y m =
  {| year := Spec.nextQuarterYear y m;
     month := Spec.nextQuarterMonth m;
     day := 1 |}.
Proof.
  intros Hm.
  assert (Hc : m = 1 \/ m = 2 \/ m = 3 \/ m = 4 \/ m = 5 \/ m = 6 \/ m = 7
               \/ m = 8 \/ m = 9 \/ m = 10 \/ m = 11 \/ m = 12) by lia.
  repeat (destruct Hc as [Hc | Hc]; [subst m; reflexivity | ]).
  subst m; reflexivity.
Qed.

Section PagibigBlock.
Variables (tza now : Z) (userInfo : personal_info).

Lemma primaryEntry_kind (num : string) :
  isPrimaryPagibig (primaryEntry tza now userInfo num) = true /\
  isQuarterlyOption (primaryEntry tza now userInfo num) = false.
Proof.
  unfold isPrimaryPagibig, isQuarterlyOption, primaryEntry.
  destruct (strictEq (employment_status userInfo) "employed");
    split; reflexivity.
Qed.

Lemma quarterlyEntry_kind (num : string) :
  isQuarterlyOption (quarterlyEntry tza now num) = true.
Proof. reflexivity. Qed.

Lemma pagibigBlock_employed (num : string) (dueDates : list DueDate) :
  pagibig_number userInfo = Some num -> num <> "" ->
  employment_status userInfo = Some "employed" ->
  pagibigBlock tza now userInfo dueDates =
  Normal (dueDates ++ [primaryEntry tza now userInfo num])%list.
Proof.
  intros Hn Hne He. unfold pagibigBlock, primaryEntry. rewrite Hn, He.
  rewrite truthy_Some by exact Hne. reflexivity.
Qed.

Lemma pagibigBlock_self (num : string) (dueDates : list DueDate) :
  pagibig_number userInfo = Some num -> num <> "" ->
  employment_status userInfo = Some "self-employed" ->
  pagibigBlock tza now userInfo dueDates =
  Normal (dueDates ++
    [primaryEntry tza now userInfo num;
              quarterlyEntry tza now num])%list.
Proof.
  intros Hn Hne He. unfold pagibigBlock, primaryEntry, quarterlyEntry.
  rewrite Hn, He. rewrite truthy_Some by exact Hne.
  change (strictEq (Some "self-employed") "employed") with false.
  change (strictEq (Some "self-employed") "self-employed") with true.
  cbv iota. change (false || true) with true. cbv iota.
  rewrite (getFirstDayOfNextQuarter_spec (currentYear tza now)
             (currentMonth tza now) (asOfMonth_range tza now)).
  unfold push. rewrite <- app_assoc. reflexivity.
Qed.

Lemma pagibigBlock_other (dueDates : list DueDate) :
  employment_status userInfo <> Some "employed" ->
  employment_status userInfo <> Some "self-employed" ->
  pagibigBlock tza now userInfo dueDates = Normal dueDates.
Proof.
  intros H1 H2. unfold pagibigBlock.
  apply strictEq_false in H1, H2. rewrite H1, H2.
  destruct (truthy (pagibig_number userInfo)); reflexivity.
Qed.

Lemma pagibigBlock_falsy (dueDates : list DueDate) :
  truthy (pagibig_number userInfo) = false ->
  pagibigBlock tza now userInfo dueDates = Normal dueDates.
Proof. intros H. unfold pagibigBlock. rewrite H. reflexivity. Qed.

(** The block appends nothing, the primary entry, or the primary entry
    followed by the quarterly option. *)
Lemma pagibigBlock_shape :
  exists es,
    (forall dueDates,
        pagibigBlock tza now userInfo dueDates = Normal (dueDates ++ es)%list)
    /\ (es = [] \/
        exists num, pagibig_number userInfo = Some num /\
          (es = [primaryEntry tza now userInfo num] \/
           (employment_status userInfo = Some "self-employed" /\
            es = [primaryEntry tza now userInfo num;
              quarterlyEntry tza now num]))).
Proof.
  destruct (truthy (pagibig_number userInfo)) eqn:Ht.
  2:{ exists []. split; [| left; reflexivity].
      intros. rewrite app_nil_r. apply pagibigBlock_falsy. exact Ht. }
  destruct (pagibig_number userInfo) as [num |] eqn:Hn; [| discriminate].
  assert (Hne : num <> "").
  { intros ->. discriminate. }
  destruct (strictEq (employment_status userInfo) "employed") eqn:E1.
  - apply strictEq_true in E1. exists [primaryEntry tza now userInfo num].
    split.
    + intros. apply pagibigBlock_employed; assumption.
    + right. exists num. split; [reflexivity | left; reflexivity].
  - destruct (strictEq (employment_status userInfo) "self-employed") eqn:E2.
    + apply strictEq_true in E2.
      exists [primaryEntry tza now userInfo num;
              quarterlyEntry tza now num].
      split.
      * intros. apply pagibigBlock_self; assumption.
      * right. exists num. split; [reflexivity |].
        right. split; [assumption | reflexivity].
    + apply strictEq_false in E1, E2. exists []. split; [| left; reflexivity].
      intros. rewrite app_nil_r. apply pagibigBlock_other; assumption.
Qed.

End PagibigBlock.

(** ** The array before the filter *)

Lemma pagibig_entries (tza now : Z) (userInfo : personal_info)
    (es : list DueDate) :
  (es = [] \/
   exists num, pagibig_number userInfo = Some num /\
     (es = [primaryEntry tza now userInfo num] \/
      (employment_status userInfo = Some "self-employed" /\
       es = [primaryEntry tza now userInfo num;
              quarterlyEntry tza now num]))) ->
  (List.length es <= 2)%nat /\ Forall (fun e => agency e = "Pag-IBIG") es.
Proof.
  intros [-> | (num & _ & [-> | [_ ->]])]; split; cbn; try lia;
    repeat constructor.
Qed.

Lemma candidates_split (tza now : Z) (userInfo : personal_info) :
  exists ph ss pg,
    philhealthBlock tza now userInfo [] = Normal ph /\
    sssBlock tza now userInfo [] = Normal ss /\
    pagibigBlock tza now userInfo [] = Normal pg /\
    candidates tza now userInfo = Normal (ph ++ ss ++ pg)%list /\
    ((List.length ph <= 1)%nat /\
     Forall (fun e => agency e = "PhilHealth") ph) /\
    ((List.length ss <= 1)%nat /\ Forall (fun e => agency e = "SSS") ss) /\
    (pg = [] \/
     exists num, pagibig_number userInfo = Some num /\
       (pg = [primaryEntry tza now userInfo num] \/
        (employment_status userInfo = Some "self-employed" /\
         pg = [primaryEntry tza now userInfo num;
              quarterlyEntry tza now num]))).
Proof.
  destruct (philhealthBlock_shape tza now userInfo) as (ph & Hph & Lph & Aph).
  destruct (sssBlock_shape tza now userInfo) as (ss & Hss & Lss & Ass).
  destruct (pagibigBlock_shape tza now userInfo) as (pg & Hpg & Spg).
  exists ph, ss, pg. repeat split; try assumption.
  - apply (Hph []).
  - apply (Hss []).
  - apply (Hpg []).
  - unfold candidates, bind. rewrite (Hph []), Hss, Hpg.
    cbn [app]. rewrite app_assoc. reflexivity.
Qed.

Lemma ofAgency_candidates (ph ss pg : list DueDate) :
  Forall (fun e => agency e = "PhilHealth") ph ->
  Forall (fun e => agency e = "SSS") ss ->
  Forall (fun e => agency e = "Pag-IBIG") pg ->
  ofAgency "PhilHealth" (ph ++ ss ++ pg)%list = ph /\
  ofAgency "SSS" (ph ++ ss ++ pg)%list = ss /\
  ofAgency "Pag-IBIG" (ph ++ ss ++ pg)%list = pg.
Proof.
  intros Hph Hss Hpg. rewrite !ofAgency_app.
  rewrite (ofAgency_same _ _ Hph), (ofAgency_same _ _ Hss),
    (ofAgency_same _ _ Hpg).
  rewrite (ofAgency_other "PhilHealth" "SSS" ss),
    (ofAgency_other "PhilHealth" "Pag-IBIG" pg),
    (ofAgency_other "SSS" "PhilHealth" ph),
    (ofAgency_other "SSS" "Pag-IBIG" pg),
    (ofAgency_other "Pag-IBIG" "PhilHealth" ph),
    (ofAgency_other "Pag-IBIG" "SSS" ss); try assumption; try discriminate.
  rewrite !app_nil_r. repeat split.
Qed.

Lemma Normal_inj {A : Type} (a b : A) : Normal a = Normal b -> a = b.
Proof. intros H. injection H as ->. reflexivity. Qed.

Lemma following_range (y m : Z) :
  1 <= m <= 12 ->
  y <= Spec.followingYear y m <= y + 1 /\ 1 <= Spec.followingMonth m <= 12.
Proof.
  intros Hm. unfold Spec.followingYear, Spec.followingMonth.
  destruct (Z.eqb_spec m 12); lia.
Qed.

(** ** Reading back the date strings *)

Lemma rangeAll_spec (f : Z -> bool) (n : nat) :
  forall lo, rangeAll f lo n = true ->
  forall z, lo <= z < lo + Z.of_nat n -> f z = true.
Proof.
  induction n as [| k IH]; intros lo H z Hz; [lia |].
  cbn [rangeAll] in H. apply andb_true_iff in H as [H0 Hk].
  destruct (Z.eq_dec z lo) as [-> | Hne]; [exact H0 |].
  apply (IH (lo + 1) Hk). lia.
Qed.

Lemma fourDigits_year (y : Z) : 1000 <= y <= 9999 -> fourDigits y = true.
Proof.
  intros Hy. apply (rangeAll_spec fourDigits (Z.to_nat 9000) 1000).
  - vm_compute. reflexivity.
  - rewrite Z2Nat.id; lia.
Qed.

Lemma twoDigits_below_100 (n : Z) : 0 <= n <= 99 -> twoDigits n = true.
Proof.
  intros Hn. apply (rangeAll_spec twoDigits (Z.to_nat 100) 0).
  - vm_compute. reflexivity.
  - rewrite Z2Nat.id; lia.
Qed.

Lemma isNumber_true (a : option Z) (b : Z) : isNumber a b = true -> a = Some b.
Proof.
  destruct a as [x |]; cbn; [| discriminate].
  intros H. apply Z.eqb_eq in H. congruence.
Qed.

(** The string built for the civil date [y]-[m]-[d] is read by
    [new Date(string)] as UTC midnight of that date. *)
Lemma Date_parse_isoDate (y m d : Z) :
  1000 <= y <= 9999 -> 1 <= m <= 12 -> 1 <= d <= 31 ->
  Date_parse (Spec.isoDate y m d) =
  ES.TimeClip (ES.MakeDate (ES.MakeDay y (m - 1) d) (ES.MakeTime 0 0 0 0)).
Proof.
  intros Hy Hm Hd.
  pose proof (fourDigits_year y Hy) as Fy.
  pose proof (twoDigits_below_100 m ltac:(lia)) as Fm.
  pose proof (twoDigits_below_100 d ltac:(lia)) as Fd.
  unfold fourDigits in Fy. unfold twoDigits in Fm, Fd. unfold Spec.isoDate.
  destruct (String_of y) as [| y1 [| y2 [| y3 [| y4 [| ? ?]]]]];
    try discriminate.
  destruct (pad2 m) as [| m1 [| m2 [| ? ?]]]; try discriminate.
  destruct (pad2 d) as [| d1 [| d2 [| ? ?]]]; try discriminate.
  apply andb_true_iff in Fy as [Fy1 Fy2].
  apply isNumber_true in Fy1, Fy2, Fm, Fd.
  cbn [append]. unfold Date_parse. rewrite Fy1, Fy2, Fm, Fd.
  replace (100 * (y / 100) + y mod 100) with y
    by (Z.to_euclidean_division_equations; lia).
  destruct (Z.leb_spec 1 m), (Z.leb_spec m 12), (Z.leb_spec 1 d),
    (Z.leb_spec d 31); try lia.
  reflexivity.
Qed.

(** ** Dates of the following month lie after [now] *)

Module Timeline.
Import ES ESFacts.

Lemma monthOfDay_before_next (d l : Z) :
  l = 0 \/ l = 1 -> monthOfDay d l < 11 ->
  d < monthStart (monthOfDay d l + 1) l.
Proof.
  intros Hl. unfold monthOfDay.
  destruct Hl; subst l;
    repeat match goal with
           | |- context [if ?a <? ?b then _ else _] =>
               destruct (Z.ltb_spec a b)
           end;
    intros Hm; cbn in *; lia.
Qed.

Lemma monthStart_range (m l : Z) :
  0 <= m <= 11 -> l = 0 \/ l = 1 -> 0 <= monthStart m l <= 335.
Proof.
  intros Hm Hl. destruct (Z.eq_dec m 0) as [-> | Hne].
  - cbn. lia.
  - pose proof (LastDay.monthStart_bounds m l ltac:(lia) Hl). lia.
Qed.

Lemma MakeDay_in_year (y m d : Z) :
  0 <= m <= 11 ->
  MakeDay y m d = DayFromYear y + monthStart m (leapFlag y) + d - 1.
Proof.
  intros Hm. unfold MakeDay, leapFlag. cbv zeta.
  rewrite (Z.div_small m 12), (Z.mod_small m 12), Z.add_0_r by lia.
  reflexivity.
Qed.

(** The day of [t] lies before the first day of the following month. *)
Lemma day_before_following (t : Z) :
  Day t <
  MakeDay (Spec.followingYear (YearFromTime t) (MonthFromTime t + 1))
          (Spec.followingMonth (MonthFromTime t + 1) - 1) 1.
Proof.
  pose proof (MonthFromTime_range t) as Hm.
  pose proof (YearFromDay_spec (Day t)) as Hy. fold (YearFromTime t) in Hy.
  unfold Spec.followingYear, Spec.followingMonth.
  destruct (Z.eqb_spec (MonthFromTime t + 1) 12) as [E | E].
  - rewrite MakeDay_in_year by lia.
    change (monthStart (1 - 1) _) with 0. lia.
  - rewrite MakeDay_in_year by lia.
    replace (MonthFromTime t + 1 + 1 - 1) with (MonthFromTime t + 1) by lia.
    pose proof (monthOfDay_before_next (DayWithinYear t) (InLeapYear t)) as Hb.
    fold (MonthFromTime t) in Hb.
    assert (Hl : InLeapYear t = leapFlag (YearFromTime t)) by reflexivity.
    rewrite Hl in Hb.
    specialize (Hb (LastDay.leapFlag_cases _) ltac:(lia)).
    unfold DayWithinYear in Hb. lia.
Qed.

Lemma MakeDay_date (y m d : Z) : MakeDay y m d = MakeDay y m 1 + (d - 1).
Proof. unfold MakeDay. lia. Qed.

Lemma time_before_next_day (t : Z) : t < (Day t + 1) * msPerDay.
Proof. unfold Day, msPerDay. Z.to_euclidean_division_equations. lia. Qed.

Lemma time_from_day (t : Z) : Day t * msPerDay <= t.
Proof. unfold Day, msPerDay. Z.to_euclidean_division_equations. lia. Qed.

(** Midnight of a civil date of the years 1970 to 9999 is a time value. *)
Lemma civil_clipped (y m d : Z) :
  1970 <= y <= 9999 -> 1 <= m <= 12 -> 1 <= d <= 31 ->
  TimeClip (MakeDate (MakeDay y (m - 1) d) (MakeTime 0 0 0 0))
  = Some (MakeDate (MakeDay y (m - 1) d) (MakeTime 0 0 0 0)).
Proof.
  intros Hy Hm Hd.
  rewrite MakeDay_in_year by lia.
  pose proof (monthStart_range (m - 1) (leapFlag y) ltac:(lia)
                (LastDay.leapFlag_cases y)) as Hs.
  pose proof (DayFromYear_mono 1970 y ltac:(lia)) as M1.
  pose proof (DayFromYear_mono y 10001 ltac:(lia)) as M2.
  rewrite LastDay.DayFromYear_1970 in M1.
  rewrite LastDay.DayFromYear_10001 in M2.
  unfold TimeClip, MakeDate, MakeTime, msPerDay, maxTime.
  set (n := DayFromYear y + monthStart (m - 1) (leapFlag y) + d - 1) in *.
  destruct (Z.leb_spec
              (Z.abs (n * 86400000
                      + (0 * 3600000 + 0 * 60000 + 0 * 1000 + 0)))
              8640000000000000); [reflexivity | lia].
Qed.

(** The filter keeps an entry due on [y]-[m]-[d] exactly when [now] is not
    after UTC midnight of that date. *)
Lemma notPast_isoDate (now : Z) (e : DueDate) (y m d : Z) :
  1970 <= y <= 9999 -> 1 <= m <= 12 -> 1 <= d <= 31 ->
  dueDate e = Spec.isoDate y m d ->
  notPast now e
  = (now <=? MakeDate (MakeDay y (m - 1) d) (MakeTime 0 0 0 0)).
Proof.
  intros Hy Hm Hd He. unfold notPast. rewrite He.
  rewrite Date_parse_isoDate by lia.
  rewrite civil_clipped by assumption. reflexivity.
Qed.

Section Following.
Variables (tza now : Z).
Hypothesis Hclock : wallClock tza now.

Lemma following_not_past (d : Z) :
  2 <= d ->
  now <=
  MakeDate
    (MakeDay (Spec.followingYear (asOfYear tza now) (asOfMonth tza now))
             (Spec.followingMonth (asOfMonth tza now) - 1) d)
    (MakeTime 0 0 0 0).
Proof.
  intros Hd. destruct Hclock as [Hz _].
  pose proof (day_before_following (LocalTime tza now)) as Hb.
  pose proof (time_before_next_day (LocalTime tza now)) as Ht.
  unfold asOfYear, asOfMonth, currentYear, currentMonth, getFullYear, getMonth.
  rewrite MakeDay_date.
  set (first := MakeDay _ _ 1) in *.
  unfold MakeDate, MakeTime, LocalTime, msPerDay in *. lia.
Qed.

(** An entry due on day [d >= 2] of the following month passes the filter. *)
Lemma notPast_following (e : DueDate) (d : Z) :
  2 <= d <= 31 ->
  dueDate e =
    Spec.isoDate (Spec.followingYear (asOfYear tza now) (asOfMonth tza now))
      (Spec.followingMonth (asOfMonth tza now)) d ->
  notPast now e = true.
Proof.
  intros Hd He.
  pose proof (following_range (asOfYear tza now) (asOfMonth tza now)
                (asOfMonth_range tza now)) as [Hfy Hfm].
  assert (Hy : 1970 <= asOfYear tza now <= 9998) by apply Hclock.
  rewrite (notPast_isoDate now e
             (Spec.followingYear (asOfYear tza now) (asOfMonth tza now))
             (Spec.followingMonth (asOfMonth tza now)) d)
    by (assumption || lia).
  apply Z.leb_le. apply following_not_past. lia.
Qed.

End Following.
End Timeline.

Lemma computeDueDates_candidates (tza now : Z) (userInfo : personal_info)
    (c : list DueDate) :
  candidates tza now userInfo = Normal c ->
  computeDueDates tza now userInfo = Normal (filter (notPast now) c).
Proof. intros H. unfold computeDueDates. rewrite H. reflexivity. Qed.

Lemma ofAgency_filter_comm (a : string) (f : DueDate -> bool)
    (l : list DueDate) :
  ofAgency a (filter f l) = filter f (ofAgency a l).
Proof.
  unfold ofAgency. induction l as [| e l IH]; [reflexivity |].
  simpl. destruct (f e) eqn:Hf; destruct (agency e =? a)%string eqn:Ha;
    simpl; rewrite ?Hf, ?Ha, IH; reflexivity.
Qed.

Lemma lastDayOfMonth_range (y m : Z) : 28 <= Spec.lastDayOfMonth y m <= 31.
Proof.
  unfold Spec.lastDayOfMonth.
  destruct (m =? 2); [destruct (Spec.leapYear y); lia |].
  destruct ((m =? 4) || (m =? 6) || (m =? 9) || (m =? 11)); lia.
Qed.

(** ** PhilHealth *)





(** ** SSS *)



(** ** Pag-IBIG *)

Lemma In_ofAgency (a : string) (e : DueDate) (l : list DueDate) :
  In e l -> agency e = a -> In e (ofAgency a l).
Proof.
  intros Hin Ha. apply filter_In. split; [exact Hin |].
  rewrite Ha. apply String.eqb_refl.
Qed.


Lemma isQuarterlyOption_agency (e : DueDate) :
  isQuarterlyOption e = true -> agency e = "Pag-IBIG".
Proof.
  unfold isQuarterlyOption. intros H. apply andb_true_iff in H as [H _].
  apply String.eqb_eq. exact H.
Qed.



Lemma nextQuarter_range (y m : Z) :
  1 <= m <= 12 ->
  y <= Spec.nextQuarterYear y m <= y + 1 /\
  1 <= Spec.nextQuarterMonth m <= 12.
Proof.
  intros Hm. unfold Spec.nextQuarterYear, Spec.nextQuarterMonth, Spec.quarterOf.
  destruct (m <=? 3); [cbn; lia |].
  destruct (m <=? 6); [cbn; lia |].
  destruct (m <=? 9); cbn; lia.
Qed.

(** C6. With a Pag-IBIG number present and the status self-employed, the
    array before the filter holds exactly two Pag-IBIG entries: the primary
    one, then a quarterly option due on the first day of the first month of
    the quarter after the quarter of [now] (quarters being the months 1-3,
    4-6, 7-9 and 10-12, the fourth followed by the first of the next year);
    on a wall-clock reading the filter keeps the primary entry, and the
    quarterly option as long as [now] is not after UTC midnight of its date.
    Under every other status no entry of the array is a quarterly option. *)
Theorem C6_pagibig_quarterly (tza now : Z) (userInfo : personal_info) :
  exists c r,
    candidates tza now userInfo = Normal c /\
    computeDueDates tza now userInfo = Normal r /\
    (forall num,
        pagibig_number userInfo = Some num -> num <> "" ->
        employment_status userInfo = Some "self-employed" ->
        exists p q,
          ofAgency "Pag-IBIG" c = [p; q] /\
          isPrimaryPagibig p = true /\
          dueDate p =
            Spec.isoDate
              (Spec.followingYear (asOfYear tza now) (asOfMonth tza now))
              (Spec.followingMonth (asOfMonth tza now)) 10 /\
          isQuarterlyOption q = true /\
          dueDate q =
            Spec.isoDate
              (Spec.nextQuarterYear (asOfYear tza now) (asOfMonth tza now))
              (Spec.nextQuarterMonth (asOfMonth tza now)) 1 /\
          membershipNumber p = Some num /\ membershipNumber q = Some num /\
          (wallClock tza now ->
           ofAgency "Pag-IBIG" r =
             p :: (if now <=?
                      ES.MakeDate
                        (ES.MakeDay
                           (Spec.nextQuarterYear (asOfYear tza now)
                              (asOfMonth tza now))
                           (Spec.nextQuarterMonth (asOfMonth tza now) - 1) 1)
                        (ES.MakeTime 0 0 0 0)
                   then [q] else []))) /\
    (employment_status userInfo <> Some "self-employed" ->
     forall e, In e c \/ In e r -> isQuarterlyOption e = false).
Proof.
  destruct (candidates_split tza now userInfo)
    as (ph & ss & pg & _ & _ & Hpg & Hc & [_ Aph] & [_ Ass] & Spg).
  destruct (pagibig_entries _ _ _ _ Spg) as [_ Apg].
  destruct (ofAgency_candidates ph ss pg Aph Ass Apg) as (_ & _ & Epg).
  exists (ph ++ ss ++ pg)%list, (filter (notPast now) (ph ++ ss ++ pg)%list).
  split; [exact Hc |].
  split; [apply computeDueDates_candidates; exact Hc |]. split.
  - intros num Hn Hne He.
    rewrite (pagibigBlock_self tza now userInfo num [] Hn Hne He) in Hpg.
    apply Normal_inj in Hpg. rewrite ofAgency_filter_comm, Epg. subst pg.
    exists (primaryEntry tza now userInfo num), (quarterlyEntry tza now num).
    split; [reflexivity |].
    split; [apply primaryEntry_kind |].
    split; [reflexivity |]. split; [reflexivity |]. split; [reflexivity |].
    split; [reflexivity |]. split; [reflexivity |].
    intros W. pose proof W as [_ Hy]. fold (asOfYear tza now) in Hy.
    pose proof (nextQuarter_range (asOfYear tza now) (asOfMonth tza now)
                  (asOfMonth_range tza now)) as [Hqy Hqm].
    cbn [filter app].
    rewrite (Timeline.notPast_following tza now W
               (primaryEntry tza now userInfo num) 10)
      by (lia || reflexivity).
    rewrite (Timeline.notPast_isoDate now (quarterlyEntry tza now num)
               (Spec.nextQuarterYear (asOfYear tza now) (asOfMonth tza now))
               (Spec.nextQuarterMonth (asOfMonth tza now)) 1)
      by (assumption || reflexivity || lia).
    destruct (now <=? _); reflexivity.
  - intros Hs e Hin.
    assert (Hin0 : In e (ph ++ ss ++ pg)%list).
    { destruct Hin as [Hin | Hin]; [exact Hin |].
      apply filter_In in Hin. apply Hin. }
    destruct (isQuarterlyOption e) eqn:Hq; [exfalso | reflexivity].
    pose proof (In_ofAgency "Pag-IBIG" e _ Hin0 (isQuarterlyOption_agency e Hq))
      as Hin'.
    rewrite Epg in Hin'.
    destruct Spg as [-> | (num & _ & [-> | [He _]])].
    + destruct Hin'.
    + destruct Hin' as [<- | []].
      destruct (primaryEntry_kind tza now userInfo num) as [_ Hk]. congruence.
    + contradiction.
Qed.

Lemma C6_pagibig_quarterly_witness :
  exists c r p q,
    candidates 0 1755691200000
      (mkInfo (Some "self-employed") None None (Some "1234-5678-9012"))
      = Normal c /\
    computeDueDates 0 1755691200000
      (mkInfo (Some "self-employed") None None (Some "1234-5678-9012"))
      = Normal r /\
    ofAgency "Pag-IBIG" c = [p; q] /\
    dueDate p = "2025-09-10" /\ dueDate q = "2025-10-01".
Proof.
  destruct (C6_pagibig_quarterly 0 1755691200000
              (mkInfo (Some "self-employed") None None (Some "1234-5678-9012")))
    as (c & r & Hc & Hr & Hself & _).
  destruct (Hself "1234-5678-9012" eq_refl ltac:(discriminate) eq_refl)
    as (p & q & Hpq & _ & Hp & _ & Hq & _).
  exists c, r, p, q. split; [exact Hc |]. split; [exact Hr |].
  split; [exact Hpq |]. split.
  - rewrite Hp. vm_compute. reflexivity.
  - rewrite Hq. vm_compute. reflexivity.
Defined.

(** ** The whole computation *)

(** C7. A profile without PhilHealth, SSS and Pag-IBIG number yields the
    empty array, whatever [now], the time zone and the employment status. *)
Theorem C7_no_numbers (tza now : Z) (userInfo : personal_info) :
  philhealth_number userInfo = None ->
  sss_number userInfo = None ->
  pagibig_number userInfo = None ->
  computeDueDates tza now userInfo = Normal [] /\
  handler tza now (QueryRows [userInfo]) = Json [].
Proof.
  intros H1 H2 H3.
  assert (Hc : candidates tza now userInfo = Normal []).
  { unfold candidates.
    rewrite philhealthBlock_falsy by (rewrite H1; reflexivity).
    unfold bind.
    rewrite sssBlock_falsy by (rewrite H2; reflexivity).
    apply pagibigBlock_falsy. rewrite H3. reflexivity. }
  assert (Hr : computeDueDates tza now userInfo = Normal []).
  { rewrite (computeDueDates_candidates tza now userInfo [] Hc). reflexivity. }
  split; [exact Hr |]. unfold handler. rewrite Hr. reflexivity.
Qed.

Lemma C7_no_numbers_witness :
  computeDueDates 28800000 1764936000000
    (mkInfo (Some "self-employed") None None None) = Normal [] /\
  handler 28800000 1764936000000
    (QueryRows [mkInfo (Some "self-employed") None None None]) = Json [].
Proof.
  apply (C7_no_numbers 28800000 1764936000000
           (mkInfo (Some "self-employed") None None None));
    reflexivity.
Defined.

(** C8. The computation never throws: for every row, every [now] and every
    time zone it completes normally with an array (possibly empty), the
    final character of the PhilHealth number being a digit or not; and the
    route answers every successful query with JSON. *)
Theorem C8_total (tza now : Z) :
  (forall userInfo,
      exists l, computeDueDates tza now userInfo = Normal l) /\
  (forall results, exists l, handler tza now (QueryRows results) = Json l).
Proof.
  assert (H : forall userInfo,
             exists l, computeDueDates tza now userInfo = Normal l).
  { intros userInfo.
    destruct (candidates_split tza now userInfo)
      as (ph & ss & pg & _ & _ & _ & Hc & _).
    eexists. apply (computeDueDates_candidates _ _ _ _ Hc). }
  split; [exact H |].
  intros [| userInfo rest].
  - exists []. reflexivity.
  - destruct (H userInfo) as [l Hl]. exists l. unfold handler.
    rewrite Hl. reflexivity.
Qed.

(** C9. An empty-string membership number is treated exactly like an absent
    one: the row with [''] in a number column yields the same array, before
    and after the filter, as the row with [null] there, and that array has
    no entry of the agency. *)
Theorem C9_empty_string_is_absent (tza now : Z)
    (es ph ss pg : option string) :
  (candidates tza now (mkInfo es (Some "") ss pg)
     = candidates tza now (mkInfo es None ss pg) /\
   computeDueDates tza now (mkInfo es (Some "") ss pg)
     = computeDueDates tza now (mkInfo es None ss pg) /\
   exists l, candidates tza now (mkInfo es (Some "") ss pg) = Normal l /\
             ofAgency "PhilHealth" l = []) /\
  (candidates tza now (mkInfo es ph (Some "") pg)
     = candidates tza now (mkInfo es ph None pg) /\
   computeDueDates tza now (mkInfo es ph (Some "") pg)
     = computeDueDates tza now (mkInfo es ph None pg) /\
   exists l, candidates tza now (mkInfo es ph (Some "") pg) = Normal l /\
             ofAgency "SSS" l = []) /\
  (candidates tza now (mkInfo es ph ss (Some ""))
     = candidates tza now (mkInfo es ph ss None) /\
   computeDueDates tza now (mkInfo es ph ss (Some ""))
     = computeDueDates tza now (mkInfo es ph ss None) /\
   exists l, candidates tza now (mkInfo es ph ss (Some "")) = Normal l /\
             ofAgency "Pag-IBIG" l = []).
Proof.
  assert (Hagency : forall userInfo a,
    (a = "PhilHealth" -> truthy (philhealth_number userInfo) = false) ->
    (a = "SSS" -> truthy (sss_number userInfo) = false) ->
    (a = "Pag-IBIG" -> truthy (pagibig_number userInfo) = false) ->
    a = "PhilHealth" \/ a = "SSS" \/ a = "Pag-IBIG" ->
    exists l, candidates tza now userInfo = Normal l /\ ofAgency a l = []).
  { intros userInfo a F1 F2 F3 Ha.
    destruct (candidates_split tza now userInfo)
      as (p & s & g & Hp & Hs & Hg & Hc & [_ Ap] & [_ As] & Sg).
    destruct (pagibig_entries _ _ _ _ Sg) as [_ Ag].
    destruct (ofAgency_candidates p s g Ap As Ag) as (Ep & Es & Eg).
    exists (p ++ s ++ g)%list. split; [exact Hc |].
    destruct Ha as [-> | [-> | ->]].
    - rewrite Ep.
      rewrite philhealthBlock_falsy in Hp by (apply F1; reflexivity).
      apply Normal_inj in Hp. symmetry. exact Hp.
    - rewrite Es. rewrite sssBlock_falsy in Hs by (apply F2; reflexivity).
      apply Normal_inj in Hs. symmetry. exact Hs.
    - rewrite Eg. rewrite pagibigBlock_falsy in Hg by (apply F3; reflexivity).
      apply Normal_inj in Hg. symmetry. exact Hg. }
  assert (E1 : candidates tza now (mkInfo es (Some "") ss pg)
               = candidates tza now (mkInfo es None ss pg)) by reflexivity.
  assert (E2 : candidates tza now (mkInfo es ph (Some "") pg)
               = candidates tza now (mkInfo es ph None pg)) by reflexivity.
  assert (E3 : candidates tza now (mkInfo es ph ss (Some ""))
               = candidates tza now (mkInfo es ph ss None)) by reflexivity.
  split; [| split].
  - split; [exact E1 |]. split.
    + unfold computeDueDates. rewrite E1. reflexivity.
    + apply Hagency; auto; discriminate.
  - split; [exact E2 |]. split.
    + unfold computeDueDates. rewrite E2. reflexivity.
    + apply Hagency; auto; discriminate.
  - split; [exact E3 |]. split.
    + unfold computeDueDates. rewrite E3. reflexivity.
    + apply Hagency; auto; discriminate.
Qed.

(** C10. The returned array holds at most one PhilHealth entry, at most one
    SSS entry and at most two Pag-IBIG entries, so at most four entries; and
    whenever the array before the filter holds a quarterly option it also
    holds a primary Pag-IBIG entry for the same membership number. *)
Theorem C10_at_most_four (tza now : Z) (userInfo : personal_info) :
  exists c l,
    candidates tza now userInfo = Normal c /\
    computeDueDates tza now userInfo = Normal l /\
    (List.length (ofAgency "PhilHealth" l) <= 1)%nat /\
    (List.length (ofAgency "SSS" l) <= 1)%nat /\
    (List.length (ofAgency "Pag-IBIG" l) <= 2)%nat /\
    (List.length l <= 4)%nat /\
    (forall q,
        In q c -> isQuarterlyOption q = true ->
        exists p,
          In p c /\ isPrimaryPagibig p = true /\
          membershipNumber p = membershipNumber q).
Proof.
  destruct (candidates_split tza now userInfo)
    as (ph & ss & pg & _ & _ & _ & Hc & [Lph Aph] & [Lss Ass] & Spg).
  destruct (pagibig_entries _ _ _ _ Spg) as [Lpg Apg].
  destruct (ofAgency_candidates ph ss pg Aph Ass Apg) as (Eph & Ess & Epg).
  exists (ph ++ ss ++ pg)%list, (filter (notPast now) (ph ++ ss ++ pg)%list).
  split; [exact Hc |].
  split; [apply computeDueDates_candidates; exact Hc |].
  pose proof (fun a => ofAgency_filter a (notPast now) (ph ++ ss ++ pg)%list)
    as F.
  pose proof (F "PhilHealth") as F1. rewrite Eph in F1.
  pose proof (F "SSS") as F2. rewrite Ess in F2.
  pose proof (F "Pag-IBIG") as F3. rewrite Epg in F3.
  pose proof (filter_length_le (notPast now) (ph ++ ss ++ pg)%list) as F4.
  rewrite !length_app in F4.
  split; [lia |]. split; [lia |]. split; [lia |]. split; [lia |].
  intros q Hin Hq.
  pose proof (In_ofAgency "Pag-IBIG" q _ Hin (isQuarterlyOption_agency q Hq))
    as Hin'.
  rewrite Epg in Hin'.
  destruct Spg as [-> | (num & _ & [-> | [_ ->]])].
  - destruct Hin'.
  - destruct Hin' as [<- | []].
    destruct (primaryEntry_kind tza now userInfo num) as [_ Hk]. congruence.
  - exists (primaryEntry tza now userInfo num). split; [| split].
    + apply in_or_app. right. apply in_or_app. right. left. reflexivity.
    + apply primaryEntry_kind.
    + destruct Hin' as [<- | [<- | []]]; reflexivity.
Qed.

(** ** The filter *)

(** What is returned for an agency is what the filter keeps of the entries
    generated for it. *)
Lemma returned_ofAgency (tza now : Z) (userInfo : personal_info)
    (c : list DueDate) (a : string) :
  candidates tza now userInfo = Normal c ->
  exists r,
    computeDueDates tza now userInfo = Normal r /\
    ofAgency a r = filter (notPast now) (ofAgency a c).
Proof.
  intros Hc. exists (filter (notPast now) c).
  split; [apply computeDueDates_candidates; exact Hc |].
  apply ofAgency_filter_comm.
Qed.

(** The PhilHealth entry of a self-employed member, due on the last day of
    the current month, is missing from the returned array as soon as [now]
    is past UTC midnight of that day. *)
Lemma self_employed_entry_lost (tza now : Z) (userInfo : personal_info)
    (num : string) :
  wallClock tza now ->
  philhealth_number userInfo = Some num -> num <> "" ->
  employment_status userInfo = Some "self-employed" ->
  ES.MakeDate
    (ES.MakeDay (asOfYear tza now) (asOfMonth tza now - 1)
       (Spec.lastDayOfMonth (asOfYear tza now) (asOfMonth tza now)))
    (ES.MakeTime 0 0 0 0) < now ->
  exists r,
    computeDueDates tza now userInfo = Normal r /\
    ofAgency "PhilHealth" r = [].
Proof.
  intros [Hz Hy] Hn Hne He Hlate.
  destruct (candidates_split tza now userInfo)
    as (ph & ss & pg & Hph & _ & _ & Hc & [_ Aph] & [_ Ass] & Spg).
  destruct (pagibig_entries _ _ _ _ Spg) as [_ Apg].
  destruct (ofAgency_candidates ph ss pg Aph Ass Apg) as (Eph & _ & _).
  destruct (returned_ofAgency tza now userInfo _ "PhilHealth" Hc)
    as (r & Hr & Er).
  exists r. split; [exact Hr |]. rewrite Er, Eph.
  rewrite (philhealthBlock_self tza now userInfo num [] Hn Hne He) in Hph.
  apply Normal_inj in Hph. subst ph.
  rewrite (LastDay.getLastDayOfMonth_gregorian tza (asOfYear tza now)
             (asOfMonth tza now) Hz)
    by (try apply asOfMonth_range; unfold asOfYear; lia).
  pose proof (lastDayOfMonth_range (asOfYear tza now) (asOfMonth tza now)).
  cbn [filter app].
  rewrite (Timeline.notPast_isoDate now _ (asOfYear tza now)
             (asOfMonth tza now)
             (Spec.lastDayOfMonth (asOfYear tza now) (asOfMonth tza now)))
    by (try apply asOfMonth_range; try reflexivity; unfold asOfYear in *; lia).
  destruct (Z.leb_spec now
              (ES.MakeDate
                 (ES.MakeDay (asOfYear tza now) (asOfMonth tza now - 1)
                    (Spec.lastDayOfMonth (asOfYear tza now)
                       (asOfMonth tza now)))
                 (ES.MakeTime 0 0 0 0))); [lia | reflexivity].
Qed.

(** C1 (defect). At noon UTC on 31 January 2025, on a server in UTC, a
    self-employed member with a PhilHealth number has one entry before the
    filter, due 2025-01-31, the civil date of [now]; the filter compares
    UTC midnight of the due date with the instant [now], time of day
    included, and drops it: the returned array is empty. *)
Theorem C1_due_today_is_dropped :
  let tza := 0 in
  let now := 1738324800000 in
  let userInfo :=
    mkInfo (Some "self-employed") (Some "12-345678901-2") None None in
  (asOfYear tza now, asOfMonth tza now, asOfDay tza now) = (2025, 1, 31) /\
  (exists e, candidates tza now userInfo = Normal [e] /\
             dueDate e = "2025-01-31") /\
  computeDueDates tza now userInfo = Normal [].
Proof.
  cbv zeta. split; [vm_compute; reflexivity |]. split.
  - eexists. split; vm_compute; reflexivity.
  - vm_compute. reflexivity.
Qed.

(** The outcome depends on the time of day: in Manila (UTC+8) on
    2025-01-31 the same row keeps its entry due that day at 07:00 and has
    lost it at 09:00. *)
Example same_day_two_outcomes :
  let userInfo :=
    mkInfo (Some "self-employed") (Some "12-345678901-2") None None in
  let at0700 := 1738278000000 in
  let at0900 := 1738285200000 in
  (asOfYear 28800000 at0700, asOfMonth 28800000 at0700,
   asOfDay 28800000 at0700) = (2025, 1, 31) /\
  (asOfYear 28800000 at0900, asOfMonth 28800000 at0900,
   asOfDay 28800000 at0900) = (2025, 1, 31) /\
  computeDueDates 28800000 at0700 userInfo
    = candidates 28800000 at0700 userInfo /\
  computeDueDates 28800000 at0900 userInfo = Normal [].
Proof. cbv zeta. repeat split; vm_compute; reflexivity. Qed.

Example self_employed_entry_lost_2025_01_31 :
  exists r,
    computeDueDates 0 1738324800000
      (mkInfo (Some "self-employed") (Some "12-345678901-2") None None)
      = Normal r /\
    ofAgency "PhilHealth" r = [].
Proof.
  apply (self_employed_entry_lost 0 1738324800000
           (mkInfo (Some "self-employed") (Some "12-345678901-2") None None)
           "12-345678901-2").
  - vm_compute. repeat split; discriminate.
  - reflexivity.
  - discriminate.
  - reflexivity.
  - vm_compute. reflexivity.
Qed.

(** ** The examples of the specification *)

Example employed_ending_3_on_2025_10_15 :
  computeDueDates 0 1760529600000
    (mkInfo (Some "employed") (Some "12-345678901-3") None None)
  = Normal
      [ {| agency := "PhilHealth";
           description :=
             "PhilHealth contribution payment (Employed) - Form PMRF, ER2";
           dueDate := "2025-11-15";
           membershipNumber := Some "12-345678901-3" |} ].
Proof. vm_compute. reflexivity. Qed.

Example employed_ending_7_on_2025_12_05 :
  computeDueDates 0 1764936000000
    (mkInfo (Some "employed") (Some "12-345678901-7") None None)
  = Normal
      [ {| agency := "PhilHealth";
           description :=
             "PhilHealth contribution payment (Employed) - Form PMRF, ER2";
           dueDate := "2026-01-20";
           membershipNumber := Some "12-345678901-7" |} ].
Proof. vm_compute. reflexivity. Qed.

Example self_employed_on_2024_02_10 :
  computeDueDates 0 1707566400000
    (mkInfo (Some "self-employed") (Some "12-345678901-2") None None)
  = Normal
      [ {| agency := "PhilHealth";
           description :=
             "PhilHealth contribution payment (Self-employed) - Form PMRF, PPP5";
           dueDate := "2024-02-29";
           membershipNumber := Some "12-345678901-2" |} ].
Proof. vm_compute. reflexivity. Qed.

Example sss_on_2025_01_31 :
  computeDueDates 0 1738324800000
    (mkInfo None None (Some "34-1234567-8") None)
  = Normal
      [ {| agency := "SSS";
           description :=
             "SSS contribution payment (Self-employed) - Form RS-1, RS-5";
           dueDate := "2025-02-28";
           membershipNumber := Some "34-1234567-8" |} ].
Proof. vm_compute. reflexivity. Qed.

(** * Further properties of the due-date handler *)

(** ** What each block can append *)

Lemma philhealth_entries (tza now : Z) (userInfo : personal_info)
    (ph : list DueDate) :
  philhealthBlock tza now userInfo [] = Normal ph ->
  ph = [] \/
  exists num,
    philhealth_number userInfo = Some num /\ num <> "" /\
    ((employment_status userInfo = Some "employed" /\
      exists ch e,
        Spec.finalChar num = Some ch /\ ph = [e] /\
        agency e = "PhilHealth" /\ membershipNumber e = Some num /\
        dueDate e =
          Spec.isoDate
            (Spec.followingYear (asOfYear tza now) (asOfMonth tza now))
            (Spec.followingMonth (asOfMonth tza now))
            (if Spec.oneToFive ch then 15 else 20)) \/
     (employment_status userInfo = Some "self-employed" /\
      exists e,
        ph = [e] /\
        agency e = "PhilHealth" /\ membershipNumber e = Some num /\
        dueDate e =
          String_of (asOfYear tza now) ++ "-"
            ++ pad2 (asOfMonth tza now) ++ "-"
            ++ pad2_number
                 (getLastDayOfMonth tza (asOfYear tza now)
                    (asOfMonth tza now)))).
Proof.
  intros Hph.
  destruct (truthy (philhealth_number userInfo)) eqn:Ht.
  2:{ rewrite philhealthBlock_falsy in Hph by exact Ht.
      apply Normal_inj in Hph. left. symmetry. exact Hph. }
  destruct (philhealth_number userInfo) as [num |] eqn:Hn; [| discriminate].
  assert (Hne : num <> "") by (intros ->; discriminate).
  destruct (strictEq (employment_status userInfo) "employed") eqn:E1.
  - apply strictEq_true in E1.
    destruct (finalChar_nonempty num Hne) as [ch Hch].
    rewrite (philhealthBlock_employed tza now userInfo num ch [] Hn Hch E1)
      in Hph.
    apply Normal_inj in Hph. right. exists num.
    split; [reflexivity |]. split; [exact Hne |]. left.
    split; [exact E1 |]. exists ch. eexists.
    split; [exact Hch |]. split; [symmetry; exact Hph |].
    split; [reflexivity |]. split; reflexivity.
  - destruct (strictEq (employment_status userInfo) "self-employed") eqn:E2.
    + apply strictEq_true in E2.
      rewrite (philhealthBlock_self tza now userInfo num [] Hn Hne E2) in Hph.
      apply Normal_inj in Hph. right. exists num.
      split; [reflexivity |]. split; [exact Hne |]. right.
      split; [exact E2 |]. eexists.
      split; [symmetry; exact Hph |].
      split; [reflexivity |]. split; reflexivity.
    + apply strictEq_false in E1, E2.
      rewrite (philhealthBlock_other tza now userInfo [] E1 E2) in Hph.
      apply Normal_inj in Hph. left. symmetry. exact Hph.
Qed.

Lemma sss_entries (tza now : Z) (userInfo : personal_info)
    (ss : list DueDate) :
  sssBlock tza now userInfo [] = Normal ss ->
  ss = [] \/
  exists num e,
    sss_number userInfo = Some num /\ num <> "" /\ ss = [e] /\
    agency e = "SSS" /\ membershipNumber e = Some num /\
    dueDate e =
      String_of
        (Spec.followingYear (asOfYear tza now) (asOfMonth tza now))
        ++ "-" ++ pad2 (Spec.followingMonth (asOfMonth tza now)) ++ "-"
        ++ pad2_number
             (getLastDayOfMonth tza
                (Spec.followingYear (asOfYear tza now) (asOfMonth tza now))
                (Spec.followingMonth (asOfMonth tza now))).
Proof.
  intros Hss.
  destruct (truthy (sss_number userInfo)) eqn:Ht.
  2:{ rewrite sssBlock_falsy in Hss by exact Ht.
      apply Normal_inj in Hss. left. symmetry. exact Hss. }
  destruct (sss_number userInfo) as [num |] eqn:Hn; [| discriminate].
  assert (Hne : num <> "") by (intros ->; discriminate).
  rewrite (sssBlock_present tza now userInfo num [] Hn Hne) in Hss.
  apply Normal_inj in Hss. right. exists num. eexists.
  split; [reflexivity |]. split; [exact Hne |].
  split; [symmetry; exact Hss |].
  split; [reflexivity |]. split; reflexivity.
Qed.

(** ** Month ends and quarter starts on the day line *)

Module Adjacent.
Import ES ESFacts.

(** The day after the last day of a month is the first of the next month. *)
Lemma month_end_adjacent (y m : Z) :
  1 <= m <= 12 ->
  MakeDay y (m - 1) (Spec.lastDayOfMonth y m) + 1
  = MakeDay (Spec.followingYear y m) (Spec.followingMonth m - 1) 1.
Proof.
  intros Hm.
  pose proof (LastDay.leapFlag_cases y) as Hl.
  pose proof (LastDay.DaysInYear_leapFlag y) as Hd.
  pose proof (DayFromYear_succ y) as Hs.
  unfold Spec.lastDayOfMonth, Spec.followingYear, Spec.followingMonth.
  rewrite <- (Bool.if_negb _ (Spec.leapYear y)).
  assert (Hleap : (if Spec.leapYear y then 29 else 28) = 28 + leapFlag y).
  { rewrite LastDay.leapFlag_leapYear. destruct (Spec.leapYear y); reflexivity. }
  rewrite Bool.if_negb, Hleap.
  assert (Hc : m = 1 \/ m = 2 \/ m = 3 \/ m = 4 \/ m = 5 \/ m = 6 \/ m = 7
               \/ m = 8 \/ m = 9 \/ m = 10 \/ m = 11 \/ m = 12) by lia.
  repeat (destruct Hc as [Hc | Hc];
          [subst m; cbn [Z.eqb Pos.eqb orb];
           rewrite !Timeline.MakeDay_in_year by lia;
           destruct Hl as [Hl | Hl]; rewrite Hl; cbn; lia | ]).
  subst m. cbn [Z.eqb Pos.eqb orb].
  rewrite !Timeline.MakeDay_in_year by lia.
  pose proof (LastDay.leapFlag_cases (y + 1)) as Hl'.
  destruct Hl as [Hl | Hl], Hl' as [Hl' | Hl']; rewrite ?Hl, ?Hl'; cbn; lia.
Qed.

(** The next quarter does not start before the following month. *)
Lemma quarter_after_following (y m : Z) :
  1 <= m <= 12 ->
  MakeDay (Spec.followingYear y m) (Spec.followingMonth m - 1) 1
  <= MakeDay (Spec.nextQuarterYear y m) (Spec.nextQuarterMonth m - 1) 1.
Proof.
  intros Hm.
  pose proof (LastDay.leapFlag_cases y) as Hl.
  pose proof (LastDay.DaysInYear_leapFlag y) as Hd.
  pose proof (DayFromYear_succ y) as Hs.
  assert (Hc : m = 1 \/ m = 2 \/ m = 3 \/ m = 4 \/ m = 5 \/ m = 6 \/ m = 7
               \/ m = 8 \/ m = 9 \/ m = 10 \/ m = 11 \/ m = 12) by lia.
  repeat (destruct Hc as [Hc | Hc];
          [subst m;
           unfold Spec.followingYear, Spec.followingMonth,
             Spec.nextQuarterYear, Spec.nextQuarterMonth, Spec.quarterOf;
           cbn [Z.eqb Z.leb Z.compare Pos.eqb Pos.compare Pos.compare_cont];
           rewrite !Timeline.MakeDay_in_year by lia;
           destruct Hl as [Hl | Hl]; rewrite ?Hl; cbn; lia | ]).
  subst m.
  unfold Spec.followingYear, Spec.followingMonth,
    Spec.nextQuarterYear, Spec.nextQuarterMonth, Spec.quarterOf.
  cbn [Z.eqb Z.leb Z.compare Pos.eqb Pos.compare Pos.compare_cont].
  rewrite !Timeline.MakeDay_in_year by lia. cbn. lia.
Qed.

End Adjacent.

(** ** The kinds of generated entries *)

Lemma isQuarterlyOption_other_agency (e : DueDate) :
  agency e <> "Pag-IBIG" -> isQuarterlyOption e = false.
Proof.
  intros H. unfold isQuarterlyOption.
  destruct (String.eqb_spec (agency e) "Pag-IBIG"); [contradiction | reflexivity].
Qed.

(** On a wall-clock reading every generated entry is of one of three kinds:
    due on a day (from the 2nd on) of the following month; the PhilHealth
    entry of a self-employed member, due on the last day of the current
    month; or the quarterly option, due on the first day of the next
    quarter. *)
Lemma candidate_kinds (tza now : Z) (userInfo : personal_info)
    (c : list DueDate) (e : DueDate) :
  wallClock tza now ->
  candidates tza now userInfo = Normal c -> In e c ->
  (isQuarterlyOption e = false /\
   exists d,
     2 <= d <=
       Spec.lastDayOfMonth
         (Spec.followingYear (asOfYear tza now) (asOfMonth tza now))
         (Spec.followingMonth (asOfMonth tza now)) /\
     dueDate e =
       Spec.isoDate
         (Spec.followingYear (asOfYear tza now) (asOfMonth tza now))
         (Spec.followingMonth (asOfMonth tza now)) d) \/
  (agency e = "PhilHealth" /\
   employment_status userInfo = Some "self-employed" /\
   dueDate e =
     Spec.isoDate (asOfYear tza now) (asOfMonth tza now)
       (Spec.lastDayOfMonth (asOfYear tza now) (asOfMonth tza now))) \/
  (isQuarterlyOption e = true /\
   employment_status userInfo = Some "self-employed" /\
   dueDate e =
     Spec.isoDate
       (Spec.nextQuarterYear (asOfYear tza now) (asOfMonth tza now))
       (Spec.nextQuarterMonth (asOfMonth tza now)) 1).
Proof.
  intros [Hz Hy] Hc Hin. fold (asOfYear tza now) in Hy.
  destruct (candidates_split tza now userInfo)
    as (ph & ss & pg & Hph & Hss & _ & Hc' & _ & _ & Spg).
  rewrite Hc in Hc'. apply Normal_inj in Hc'. subst c.
  pose proof (asOfMonth_range tza now) as HM.
  pose proof (following_range (asOfYear tza now) (asOfMonth tza now) HM)
    as [Hfy Hfm].
  pose proof (lastDayOfMonth_range
                (Spec.followingYear (asOfYear tza now) (asOfMonth tza now))
                (Spec.followingMonth (asOfMonth tza now))) as Hlast.
  apply in_app_or in Hin as [Hin | Hin]; [| apply in_app_or in Hin as [Hin | Hin]].
  - destruct (philhealth_entries tza now userInfo ph Hph)
      as [-> | (num & _ & _ & [(_ & ch & e0 & _ & -> & Ha & _ & Hd)
                              | (Hs & e0 & -> & Ha & _ & Hd)])].
    + destruct Hin.
    + destruct Hin as [<- | []]. left.
      split; [apply isQuarterlyOption_other_agency; rewrite Ha; discriminate |].
      exists (if Spec.oneToFive ch then 15 else 20).
      split; [destruct (Spec.oneToFive ch); lia | exact Hd].
    + destruct Hin as [<- | []]. right. left.
      split; [exact Ha |]. split; [exact Hs |].
      rewrite Hd.
      rewrite (LastDay.getLastDayOfMonth_gregorian tza (asOfYear tza now)
                 (asOfMonth tza now) Hz) by lia.
      reflexivity.
  - destruct (sss_entries tza now userInfo ss Hss)
      as [-> | (num & e0 & _ & _ & -> & Ha & _ & Hd)].
    + destruct Hin.
    + destruct Hin as [<- | []]. left.
      split; [apply isQuarterlyOption_other_agency; rewrite Ha; discriminate |].
      exists (Spec.lastDayOfMonth
                (Spec.followingYear (asOfYear tza now) (asOfMonth tza now))
                (Spec.followingMonth (asOfMonth tza now))).
      split; [lia |]. rewrite Hd.
      rewrite (LastDay.getLastDayOfMonth_gregorian tza
                 (Spec.followingYear (asOfYear tza now) (asOfMonth tza now))
                 (Spec.followingMonth (asOfMonth tza now)) Hz) by lia.
      reflexivity.
  - destruct Spg as [-> | (num & _ & [-> | [Hs ->]])].
    + destruct Hin.
    + destruct Hin as [<- | []]. left.
      split; [apply primaryEntry_kind |]. exists 10. split; [lia | reflexivity].
    + destruct Hin as [<- | [<- | []]].
      * left. split; [apply primaryEntry_kind |].
        exists 10. split; [lia | reflexivity].
      * right. right. split; [reflexivity |]. split; [exact Hs | reflexivity].
Qed.

Lemma generated_date_facts (tza now : Z)
    (userInfo : personal_info) (c : list DueDate) (e : DueDate) :
  wallClock tza now ->
  candidates tza now userInfo = Normal c -> In e c ->
  exists y m d,
    dueDate e = Spec.isoDate y m d /\
    1 <= m <= 12 /\ 1 <= d <= Spec.lastDayOfMonth y m /\
    Date_parse (dueDate e)
      = Some (ES.MakeDate (ES.MakeDay y (m - 1) d) (ES.MakeTime 0 0 0 0)) /\
    ES.Day (ES.LocalTime tza now) <= ES.MakeDay y (m - 1) d.
Proof.
  intros W Hc Hin. pose proof W as [Hz Hy]. fold (asOfYear tza now) in Hy.
  pose proof (asOfMonth_range tza now) as HM.
  pose proof (following_range (asOfYear tza now) (asOfMonth tza now) HM)
    as [Hfy Hfm].
  pose proof (nextQuarter_range (asOfYear tza now) (asOfMonth tza now) HM)
    as [Hqy Hqm].
  pose proof (Timeline.day_before_following (ES.LocalTime tza now)) as Hb.
  change (ES.YearFromTime (ES.LocalTime tza now)) with (asOfYear tza now) in Hb.
  change (ES.MonthFromTime (ES.LocalTime tza now) + 1)
    with (asOfMonth tza now) in Hb.
  assert (Hparse : forall y m d,
             1970 <= y <= 9999 -> 1 <= m <= 12 -> 1 <= d <= 31 ->
             dueDate e = Spec.isoDate y m d ->
             Date_parse (dueDate e)
             = Some (ES.MakeDate (ES.MakeDay y (m - 1) d) (ES.MakeTime 0 0 0 0))).
  { intros y m d Hy' Hm' Hd' He. rewrite He.
    rewrite Date_parse_isoDate by lia.
    apply Timeline.civil_clipped; assumption. }
  destruct (candidate_kinds tza now userInfo c e W Hc Hin)
    as [(_ & d & Hd & He) | [(_ & _ & He) | (_ & _ & He)]].
  - pose proof (lastDayOfMonth_range
                  (Spec.followingYear (asOfYear tza now) (asOfMonth tza now))
                  (Spec.followingMonth (asOfMonth tza now))).
    eexists _, _, d. split; [exact He |]. split; [exact Hfm |].
    split; [lia |]. split; [apply Hparse; (assumption || lia) |].
    rewrite (Timeline.MakeDay_date _ _ d). lia.
  - pose proof (lastDayOfMonth_range (asOfYear tza now) (asOfMonth tza now)).
    eexists _, _, _. split; [exact He |]. split; [exact HM |].
    split; [lia |]. split; [apply Hparse; (assumption || lia) |].
    pose proof (Adjacent.month_end_adjacent (asOfYear tza now)
                  (asOfMonth tza now) HM). lia.
  - pose proof (lastDayOfMonth_range
                  (Spec.nextQuarterYear (asOfYear tza now) (asOfMonth tza now))
                  (Spec.nextQuarterMonth (asOfMonth tza now))).
    eexists _, _, 1. split; [exact He |]. split; [exact Hqm |].
    split; [lia |]. split; [apply Hparse; (assumption || lia) |].
    pose proof (Adjacent.quarter_after_following (asOfYear tza now)
                  (asOfMonth tza now) HM). lia.
Qed.

Lemma candidates_normal (tza now : Z) (userInfo : personal_info) :
  exists c, candidates tza now userInfo = Normal c.
Proof.
  destruct (candidates_split tza now userInfo)
    as (ph & ss & pg & _ & _ & _ & Hc & _).
  eexists. exact Hc.
Qed.

(** X1. On a wall-clock reading every generated due date is a date that
    exists, is read back by [new Date] as UTC midnight of that date, and is
    not before the civil date of [now]: a date-only filter would remove
    nothing. *)
Theorem X1_generated_dates_exist_and_are_not_past (tza now : Z)
    (userInfo : personal_info) :
  wallClock tza now ->
  exists c,
    candidates tza now userInfo = Normal c /\
    forall e, In e c ->
      exists y m d,
        dueDate e = Spec.isoDate y m d /\
        1 <= m <= 12 /\ 1 <= d <= Spec.lastDayOfMonth y m /\
        Date_parse (dueDate e)
          = Some (ES.MakeDate (ES.MakeDay y (m - 1) d) (ES.MakeTime 0 0 0 0)) /\
        ES.Day (ES.LocalTime tza now) <= ES.MakeDay y (m - 1) d.
Proof.
  intros W. destruct (candidates_normal tza now userInfo) as [c Hc].
  exists c. split; [exact Hc |]. intros e Hin.
  apply (generated_date_facts tza now userInfo c e W Hc Hin).
Qed.

Lemma X1_generated_dates_exist_and_are_not_past_witness :
  wallClock 28800000 1738285200000 /\
  exists c,
    candidates 28800000 1738285200000
      (mkInfo (Some "self-employed") (Some "12-345678901-2")
         (Some "34-1234567-8") (Some "1234-5678-9012")) = Normal c /\
    forall e, In e c ->
      exists y m d,
        dueDate e = Spec.isoDate y m d /\
        1 <= m <= 12 /\ 1 <= d <= Spec.lastDayOfMonth y m /\
        Date_parse (dueDate e)
          = Some (ES.MakeDate (ES.MakeDay y (m - 1) d) (ES.MakeTime 0 0 0 0)) /\
        ES.Day (ES.LocalTime 28800000 1738285200000) <= ES.MakeDay y (m - 1) d.
Proof.
  assert (W : wallClock 28800000 1738285200000).
  { vm_compute. repeat split; discriminate. }
  split; [exact W |].
  apply (X1_generated_dates_exist_and_are_not_past 28800000 1738285200000
           (mkInfo (Some "self-employed") (Some "12-345678901-2")
              (Some "34-1234567-8") (Some "1234-5678-9012")) W).
Defined.

(** X2. On a wall-clock reading the filter can only remove the PhilHealth
    entry of a self-employed member and the Pag-IBIG quarterly option: every
    other generated entry is returned. *)
Theorem X2_filter_removes_only_two_kinds (tza now : Z)
    (userInfo : personal_info) :
  wallClock tza now ->
  exists c r,
    candidates tza now userInfo = Normal c /\
    computeDueDates tza now userInfo = Normal r /\
    forall e, In e c -> ~ In e r ->
      employment_status userInfo = Some "self-employed" /\
      (agency e = "PhilHealth" \/ isQuarterlyOption e = true).
Proof.
  intros W. destruct (candidates_normal tza now userInfo) as [c Hc].
  exists c, (filter (notPast now) c). split; [exact Hc |].
  split; [apply computeDueDates_candidates; exact Hc |].
  intros e Hin Hout.
  assert (Hf : notPast now e = false).
  { destruct (notPast now e) eqn:Hf; [| reflexivity].
    exfalso. apply Hout. apply filter_In. split; assumption. }
  destruct (candidate_kinds tza now userInfo c e W Hc Hin)
    as [(_ & d & Hd & He) | [(Ha & Hs & _) | (Hq & Hs & _)]].
  - pose proof (lastDayOfMonth_range
                  (Spec.followingYear (asOfYear tza now) (asOfMonth tza now))
                  (Spec.followingMonth (asOfMonth tza now))).
    rewrite (Timeline.notPast_following tza now W e d) in Hf
      by (lia || exact He).
    discriminate.
  - split; [exact Hs | left; exact Ha].
  - split; [exact Hs | right; exact Hq].
Qed.

Lemma X2_filter_removes_only_two_kinds_witness :
  wallClock 0 1738324800000 /\
  exists c r,
    candidates 0 1738324800000
      (mkInfo (Some "self-employed") (Some "12-345678901-2")
         (Some "34-1234567-8") (Some "1234-5678-9012")) = Normal c /\
    computeDueDates 0 1738324800000
      (mkInfo (Some "self-employed") (Some "12-345678901-2")
         (Some "34-1234567-8") (Some "1234-5678-9012")) = Normal r /\
    forall e, In e c -> ~ In e r ->
      Some "self-employed" = Some "self-employed" /\
      (agency e = "PhilHealth" \/ isQuarterlyOption e = true).
Proof.
  assert (W : wallClock 0 1738324800000).
  { vm_compute. repeat split; discriminate. }
  split; [exact W |].
  apply (X2_filter_removes_only_two_kinds 0 1738324800000
           (mkInfo (Some "self-employed") (Some "12-345678901-2")
              (Some "34-1234567-8") (Some "1234-5678-9012")) W).
Defined.

Lemma DateFromTime_same_day (t t' : Z) :
  ES.Day t = ES.Day t' -> ES.DateFromTime t = ES.DateFromTime t'.
Proof.
  intros H.
  unfold ES.DateFromTime, ES.MonthFromTime, ES.DayWithinYear, ES.InLeapYear,
    ES.YearFromTime.
  rewrite H. reflexivity.
Qed.

Lemma MakeDay_zero (y m : Z) :
  1 <= m <= 12 ->
  ES.MakeDay y m 0 = ES.MakeDay y (m - 1) (Spec.lastDayOfMonth y m).
Proof.
  intros Hm.
  pose proof (Adjacent.month_end_adjacent y m Hm) as Ha.
  rewrite (Timeline.MakeDay_date y m 0).
  assert (Hf : ES.MakeDay y m 1
               = ES.MakeDay (Spec.followingYear y m)
                   (Spec.followingMonth m - 1) 1).
  { unfold Spec.followingYear, Spec.followingMonth.
    destruct (Z.eqb_spec m 12) as [-> | Hne].
    { unfold ES.MakeDay. cbv zeta. change (12 / 12) with 1.
      change (12 mod 12) with 0. change ((1 - 1) / 12) with 0.
      change ((1 - 1) mod 12) with 0. rewrite !Z.add_0_r.
      change (ES.monthStart 0 _) with 0. lia. }
    replace (m + 1 - 1) with m by lia. reflexivity. }
  lia.
Qed.

Lemma day_squeeze (t n : Z) :
  n * ES.msPerDay < t -> ES.Day t < n + 1 -> ES.Day t = n.
Proof.
  unfold ES.Day, ES.msPerDay. intros H1 H2.
  Z.to_euclidean_division_equations. lia.
Qed.

Lemma before_day_start (t n : Z) :
  ES.Day t < n -> t <= n * ES.msPerDay.
Proof.
  unfold ES.Day, ES.msPerDay. intros H.
  Z.to_euclidean_division_equations. lia.
Qed.

Lemma MakeDate_midnight (n : Z) :
  ES.MakeDate n (ES.MakeTime 0 0 0 0) = n * ES.msPerDay.
Proof. unfold ES.MakeDate, ES.MakeTime. lia. Qed.

Lemma day_before_following_asOf (tza now : Z) :
  ES.Day (ES.LocalTime tza now) <
  ES.MakeDay (Spec.followingYear (asOfYear tza now) (asOfMonth tza now))
             (Spec.followingMonth (asOfMonth tza now) - 1) 1.
Proof. exact (Timeline.day_before_following (ES.LocalTime tza now)). Qed.

(** East of UTC, [now] past UTC midnight of the month's last day is on that
    day. *)
Lemma past_midnight_of_last_day (tza now : Z) :
  0 <= tza ->
  ES.MakeDate
    (ES.MakeDay (asOfYear tza now) (asOfMonth tza now - 1)
       (Spec.lastDayOfMonth (asOfYear tza now) (asOfMonth tza now)))
    (ES.MakeTime 0 0 0 0) < now ->
  asOfDay tza now
  = Spec.lastDayOfMonth (asOfYear tza now) (asOfMonth tza now).
Proof.
  intros Hz Hf.
  pose proof (asOfMonth_range tza now) as HM.
  pose proof (day_before_following_asOf tza now) as Hb.
  pose proof (Adjacent.month_end_adjacent (asOfYear tza now)
                (asOfMonth tza now) HM) as Hadj.
  rewrite <- (MakeDay_zero _ _ HM) in Hf, Hadj.
  rewrite <- Hadj in Hb. rewrite MakeDate_midnight in Hf.
  assert (HD : ES.Day (ES.LocalTime tza now)
               = ES.MakeDay (asOfYear tza now) (asOfMonth tza now) 0).
  { apply day_squeeze; [unfold ES.LocalTime; lia | exact Hb]. }
  destruct (LastDay.day_zero (asOfYear tza now) (asOfMonth tza now) HM)
    as (_ & _ & Hdz).
  unfold asOfDay. rewrite <- Hdz.
  apply DateFromTime_same_day.
  rewrite HD, MakeDate_midnight. symmetry. apply ESFacts.Day_of_days.
Qed.

(** East of UTC, UTC midnight of the first day of the next quarter is not
    before [now]. *)
Lemma quarter_start_not_past (tza now : Z) :
  0 <= tza ->
  now <=
  ES.MakeDate
    (ES.MakeDay
       (Spec.nextQuarterYear (asOfYear tza now) (asOfMonth tza now))
       (Spec.nextQuarterMonth (asOfMonth tza now) - 1) 1)
    (ES.MakeTime 0 0 0 0).
Proof.
  intros Hz.
  pose proof (asOfMonth_range tza now) as HM.
  pose proof (day_before_following_asOf tza now) as Hb.
  pose proof (Adjacent.quarter_after_following (asOfYear tza now)
                (asOfMonth tza now) HM) as Hq.
  rewrite MakeDate_midnight.
  assert (Hl : ES.LocalTime tza now
               <= ES.MakeDay
                    (Spec.nextQuarterYear (asOfYear tza now) (asOfMonth tza now))
                    (Spec.nextQuarterMonth (asOfMonth tza now) - 1) 1
                  * ES.msPerDay).
  { apply before_day_start. lia. }
  unfold ES.LocalTime in Hl. lia.
Qed.

(** X3. On a wall-clock reading of a server at or east of UTC, the only
    generated entry that can be missing from the response is the PhilHealth
    entry of a self-employed member, and only when [now] falls on the last
    day of the month. *)
Theorem X3_east_of_utc_only_month_end_is_lost (tza now : Z)
    (userInfo : personal_info) :
  wallClock tza now -> 0 <= tza ->
  exists c r,
    candidates tza now userInfo = Normal c /\
    computeDueDates tza now userInfo = Normal r /\
    forall e, In e c -> ~ In e r ->
      agency e = "PhilHealth" /\
      employment_status userInfo = Some "self-employed" /\
      asOfDay tza now
        = Spec.lastDayOfMonth (asOfYear tza now) (asOfMonth tza now).
Proof.
  intros W Hz. destruct (candidates_normal tza now userInfo) as [c Hc].
  exists c, (filter (notPast now) c). split; [exact Hc |].
  split; [apply computeDueDates_candidates; exact Hc |].
  intros e Hin Hout.
  assert (Hf : notPast now e = false).
  { destruct (notPast now e) eqn:Hf; [| reflexivity].
    exfalso. apply Hout. apply filter_In. split; assumption. }
  pose proof W as [_ Hy]. fold (asOfYear tza now) in Hy.
  pose proof (asOfMonth_range tza now) as HM.
  pose proof (nextQuarter_range (asOfYear tza now) (asOfMonth tza now) HM)
    as [Hqy Hqm].
  destruct (candidate_kinds tza now userInfo c e W Hc Hin)
    as [(_ & d & Hd & He) | [(Ha & Hs & He) | (_ & _ & He)]].
  - pose proof (lastDayOfMonth_range
                  (Spec.followingYear (asOfYear tza now) (asOfMonth tza now))
                  (Spec.followingMonth (asOfMonth tza now))).
    rewrite (Timeline.notPast_following tza now W e d) in Hf
      by (lia || exact He).
    discriminate.
  - split; [exact Ha |]. split; [exact Hs |].
    pose proof (lastDayOfMonth_range (asOfYear tza now) (asOfMonth tza now)).
    rewrite (Timeline.notPast_isoDate now e (asOfYear tza now)
               (asOfMonth tza now)
               (Spec.lastDayOfMonth (asOfYear tza now) (asOfMonth tza now)))
      in Hf by (assumption || lia).
    apply Z.leb_gt in Hf.
    apply (past_midnight_of_last_day tza now Hz Hf).
  - exfalso.
    rewrite (Timeline.notPast_isoDate now e
               (Spec.nextQuarterYear (asOfYear tza now) (asOfMonth tza now))
               (Spec.nextQuarterMonth (asOfMonth tza now)) 1)
      in Hf by (assumption || lia).
    apply Z.leb_gt in Hf.
    pose proof (quarter_start_not_past tza now Hz). lia.
Qed.

Lemma X3_east_of_utc_only_month_end_is_lost_witness :
  (wallClock 28800000 1738285200000 /\ 0 <= 28800000) /\
  exists c r,
    candidates 28800000 1738285200000
      (mkInfo (Some "self-employed") (Some "12-345678901-2")
         (Some "34-1234567-8") (Some "1234-5678-9012")) = Normal c /\
    computeDueDates 28800000 1738285200000
      (mkInfo (Some "self-employed") (Some "12-345678901-2")
         (Some "34-1234567-8") (Some "1234-5678-9012")) = Normal r /\
    forall e, In e c -> ~ In e r ->
      agency e = "PhilHealth" /\
      Some "self-employed" = Some "self-employed" /\
      asOfDay 28800000 1738285200000
        = Spec.lastDayOfMonth (asOfYear 28800000 1738285200000)
            (asOfMonth 28800000 1738285200000).
Proof.
  assert (W : wallClock 28800000 1738285200000).
  { vm_compute. repeat split; discriminate. }
  assert (Z0 : 0 <= 28800000) by lia.
  split; [split; [exact W | exact Z0] |].
  apply (X3_east_of_utc_only_month_end_is_lost 28800000 1738285200000
           (mkInfo (Some "self-employed") (Some "12-345678901-2")
              (Some "34-1234567-8") (Some "1234-5678-9012")) W Z0).
Defined.

(** X4. The response lists the entries by agency, PhilHealth first, then
    SSS, then Pag-IBIG, and within Pag-IBIG a quarterly option is always the
    last entry. *)
Theorem X4_entries_in_agency_order (tza now : Z) (userInfo : personal_info) :
  exists r,
    computeDueDates tza now userInfo = Normal r /\
    r = (ofAgency "PhilHealth" r ++ ofAgency "SSS" r
           ++ ofAgency "Pag-IBIG" r)%list /\
    forall l1 q l2,
      r = (l1 ++ q :: l2)%list -> isQuarterlyOption q = true -> l2 = [].
Proof.
  destruct (candidates_split tza now userInfo)
    as (ph & ss & pg & _ & _ & _ & Hc & [_ Aph] & [_ Ass] & Spg).
  destruct (pagibig_entries _ _ _ _ Spg) as [_ Apg].
  destruct (ofAgency_candidates ph ss pg Aph Ass Apg) as (Eph & Ess & Epg).
  exists (filter (notPast now) (ph ++ ss ++ pg)%list).
  split; [apply computeDueDates_candidates; exact Hc |].
  rewrite !ofAgency_filter_comm, Eph, Ess, Epg.
  split; [rewrite !filter_app; reflexivity |].
  intros l1 q l2 Hr Hq.
  assert (Hnq : forall e, In e (filter (notPast now) (ph ++ ss)%list) ->
                  isQuarterlyOption e = false).
  { intros e He. apply filter_In in He as [He _].
    apply isQuarterlyOption_other_agency.
    apply in_app_or in He as [He | He].
    - rewrite (proj1 (Forall_forall _ _) Aph e He). discriminate.
    - rewrite (proj1 (Forall_forall _ _) Ass e He). discriminate. }
  rewrite app_assoc, filter_app in Hr.
  set (front := filter (notPast now) (ph ++ ss)%list) in *.
  assert (Hpg : forall k1 k2,
            (front ++ k1 = l1 ++ q :: k2)%list ->
            Forall (fun e => isQuarterlyOption e = false) k1 -> False).
  { intros k1 k2 Heq Hk.
    assert (Hin : In q (front ++ k1)%list).
    { rewrite Heq. apply in_or_app. right. left. reflexivity. }
    apply in_app_or in Hin as [Hin | Hin].
    - rewrite (Hnq q Hin) in Hq. discriminate.
    - rewrite (proj1 (Forall_forall _ _) Hk q Hin) in Hq. discriminate. }
  destruct Spg as [-> | (num & _ & [-> | [_ ->]])].
  - exfalso. apply (Hpg [] l2 Hr). constructor.
  - exfalso. apply (Hpg _ l2 Hr). cbn [filter].
    destruct (notPast now (primaryEntry tza now userInfo num));
      repeat constructor. apply primaryEntry_kind.
  - cbn [filter] in Hr.
    destruct (notPast now (quarterlyEntry tza now num)) eqn:Fq.
    2:{ exfalso. apply (Hpg _ l2 Hr).
        destruct (notPast now (primaryEntry tza now userInfo num));
          repeat constructor. apply primaryEntry_kind. }
    (* the quarterly option is the last element of the list *)
    assert (Hlast : exists k,
               (front ++
                (if notPast now (primaryEntry tza now userInfo num)
                 then [primaryEntry tza now userInfo num;
                       quarterlyEntry tza now num]
                 else [quarterlyEntry tza now num]))%list
               = (k ++ [quarterlyEntry tza now num])%list /\
               Forall (fun e => isQuarterlyOption e = false) k).
    { destruct (notPast now (primaryEntry tza now userInfo num)).
      - exists (front ++ [primaryEntry tza now userInfo num])%list.
        split; [rewrite <- app_assoc; reflexivity |].
        apply Forall_app. split.
        + apply Forall_forall. exact Hnq.
        + repeat constructor. apply primaryEntry_kind.
      - exists front. split; [reflexivity |].
        apply Forall_forall. exact Hnq. }
    destruct Hlast as (k & Hk & Fk).
    assert (Hr' : (k ++ [quarterlyEntry tza now num])%list
                  = (l1 ++ q :: l2)%list).
    { rewrite <- Hk, <- Hr.
      destruct (notPast now (primaryEntry tza now userInfo num)); reflexivity. }
    clear Hr Hk.
    destruct l2 as [| x l2] using rev_ind; [reflexivity | exfalso].
    clear IHl2.
    change (l1 ++ q :: l2 ++ [x])%list
      with (l1 ++ (q :: l2) ++ [x])%list in Hr'.
    rewrite app_assoc in Hr'.
    apply app_inj_tail in Hr' as [Hk' _]. subst k.
    rewrite Forall_forall in Fk.
    rewrite (Fk q) in Hq; [discriminate |].
    apply in_or_app. right. left. reflexivity.
Qed.

(** X5. Every returned entry echoes the number of its own agency's column,
    and that number is a non-empty string. *)
Theorem X5_membership_number_is_echoed (tza now : Z)
    (userInfo : personal_info) :
  exists r,
    computeDueDates tza now userInfo = Normal r /\
    forall e, In e r ->
      truthy (membershipNumber e) = true /\
      ((agency e = "PhilHealth" /\
        membershipNumber e = philhealth_number userInfo) \/
       (agency e = "SSS" /\ membershipNumber e = sss_number userInfo) \/
       (agency e = "Pag-IBIG" /\
        membershipNumber e = pagibig_number userInfo)).
Proof.
  destruct (candidates_split tza now userInfo)
    as (ph & ss & pg & Hph & Hss & Hpg & Hc & _ & _ & Spg).
  exists (filter (notPast now) (ph ++ ss ++ pg)%list).
  split; [apply computeDueDates_candidates; exact Hc |].
  intros e Hin. apply filter_In in Hin as [Hin _].
  apply in_app_or in Hin as [Hin | Hin]; [| apply in_app_or in Hin as [Hin | Hin]].
  - destruct (philhealth_entries tza now userInfo ph Hph)
      as [-> | (num & Hn & Hne & [(_ & ch & e0 & _ & -> & Ha & Hm & _)
                                  | (_ & e0 & -> & Ha & Hm & _)])];
      [destruct Hin | |];
      destruct Hin as [<- | []]; rewrite Hm, Hn;
      (split; [apply truthy_Some; exact Hne | left; split; [exact Ha | reflexivity]]).
  - destruct (sss_entries tza now userInfo ss Hss)
      as [-> | (num & e0 & Hn & Hne & -> & Ha & Hm & _)]; [destruct Hin |].
    destruct Hin as [<- | []]. rewrite Hm, Hn.
    split; [apply truthy_Some; exact Hne |].
    right. left. split; [exact Ha | reflexivity].
  - assert (Hne : forall num, pagibig_number userInfo = Some num ->
                    pg <> [] -> num <> "").
    { intros num Hn Hnil ->. apply Hnil.
      rewrite pagibigBlock_falsy in Hpg by (rewrite Hn; reflexivity).
      apply Normal_inj in Hpg. symmetry. exact Hpg. }
    destruct Spg as [-> | (num & Hn & [-> | [_ ->]])]; [destruct Hin | |].
    + destruct Hin as [<- | []]. cbn [membershipNumber primaryEntry agency].
      rewrite Hn.
      split; [apply truthy_Some; apply (Hne num Hn); discriminate |].
      right. right. split; reflexivity.
    + destruct Hin as [<- | [<- | []]];
        cbn [membershipNumber primaryEntry quarterlyEntry agency];
        rewrite Hn;
        (split; [apply truthy_Some; apply (Hne num Hn); discriminate |
                 right; right; split; reflexivity]).
Qed.

(** X6. For a month from 1 to 12, [getFirstDayOfNextQuarter] returns the
    first day of January, April, July or October, from one to three months
    after the given month. *)
Theorem X6_next_quarter_within_three_months (y m : Z) :
  1 <= m <= 12 ->
  let q := getFirstDayOfNextQuarter y m in
  day q = 1 /\
  In (month q) [1; 4; 7; 10] /\
  1 <= (12 * year q + month q) - (12 * y + m) <= 3.
Proof.
  intros Hm q. unfold q.
  rewrite (getFirstDayOfNextQuarter_spec y m Hm).
  cbn [day month year].
  assert (Hc : m = 1 \/ m = 2 \/ m = 3 \/ m = 4 \/ m = 5 \/ m = 6 \/ m = 7
               \/ m = 8 \/ m = 9 \/ m = 10 \/ m = 11 \/ m = 12) by lia.
  unfold Spec.nextQuarterYear, Spec.nextQuarterMonth, Spec.quarterOf.
  split; [reflexivity |].
  repeat (destruct Hc as [Hc | Hc];
          [subst m; cbn [Z.leb Z.eqb Z.compare Pos.compare Pos.compare_cont
                         Pos.eqb In];
           split; [auto 6 | lia] | ]).
  subst m. cbn [Z.leb Z.eqb Z.compare Pos.compare Pos.compare_cont Pos.eqb In].
  split; [auto 6 | lia].
Qed.

Lemma X6_next_quarter_within_three_months_witness :
  1 <= 11 <= 12 /\
  let q := getFirstDayOfNextQuarter 2025 11 in
  day q = 1 /\
  In (month q) [1; 4; 7; 10] /\
  1 <= (12 * year q + month q) - (12 * 2025 + 11) <= 3.
Proof.
  assert (H : 1 <= 11 <= 12) by lia.
  split; [exact H |].
  apply (X6_next_quarter_within_three_months 2025 11 H).
Defined.

(** * Other routes and the upload configuration *)

(** ** String search *)

Lemma append_assoc (a b c : string) : ((a ++ b) ++ c = a ++ (b ++ c))%string.
Proof. induction a as [| x a IH]; cbn; [reflexivity | rewrite IH; reflexivity]. Qed.

Lemma append_length (a b : string) :
  String.length (a ++ b) = (String.length a + String.length b)%nat.
Proof. induction a as [| x a IH]; cbn; [reflexivity | rewrite IH; reflexivity]. Qed.

Lemma String_startsWith_iff (s p : string) :
  String_startsWith s p = true <-> exists t, s = (p ++ t)%string.
Proof.
  revert s. induction p as [| c p IH]; intros s; cbn.
  - split; [intros _; exists s; reflexivity | reflexivity].
  - destruct s as [| d s]; [split; [discriminate | intros [t Ht]; discriminate] |].
    rewrite andb_true_iff, IH. split.
    + intros [Hc [t ->]]. apply Ascii.eqb_eq in Hc. subst d.
      exists t. reflexivity.
    + intros [t Ht]. injection Ht as -> ->.
      split; [apply Ascii.eqb_refl | exists t; reflexivity].
Qed.

Lemma String_drop_append (p t : string) :
  String_drop (String.length p) (p ++ t) = t.
Proof. induction p as [| c p IH]; cbn; [destruct t; reflexivity | exact IH]. Qed.

Lemma String_includes_iff (s p : string) :
  String_includes s p = true <->
  exists pre post, s = (pre ++ p ++ post)%string.
Proof.
  induction s as [| c s IH].
  - cbn [String_includes]. rewrite orb_false_r, String_startsWith_iff. split.
    + intros [t Ht]. exists "", t. exact Ht.
    + intros (pre & post & H). destruct pre; [| discriminate].
      exists post. exact H.
  - cbn [String_includes]. rewrite orb_true_iff, IH, String_startsWith_iff.
    split.
    + intros [[t Ht] | (pre & post & ->)].
      * exists "", t. exact Ht.
      * exists (String c pre), post. reflexivity.
    + intros (pre & post & H). destruct pre as [| d pre].
      * left. exists post. exact H.
      * right. injection H as -> ->. exists pre, post. reflexivity.
Qed.

(** [String_replace] rewrites the first occurrence: the part before it is
    the shortest prefix after which the pattern occurs. *)
Lemma String_replace_first (s p r : string) :
  String_includes s p = true ->
  exists pre post,
    s = (pre ++ p ++ post)%string /\
    String_replace s p r = (pre ++ r ++ post)%string /\
    forall pre' post',
      s = (pre' ++ p ++ post')%string ->
      (String.length pre <= String.length pre')%nat.
Proof.
  induction s as [| c s IH]; intros Hin.
  - cbn [String_includes] in Hin. rewrite orb_false_r in Hin.
    cbn [String_replace]. rewrite Hin.
    apply String_startsWith_iff in Hin as [t Ht].
    exists "", t. split; [exact Ht |]. split.
    + rewrite Ht at 1. rewrite String_drop_append. reflexivity.
    + intros. cbn. lia.
  - cbn [String_replace].
    destruct (String_startsWith (String c s) p) eqn:Hs.
    + apply String_startsWith_iff in Hs as [t Ht].
      exists "", t. split; [exact Ht |]. split.
      * rewrite Ht at 1. rewrite String_drop_append. reflexivity.
      * intros. cbn. lia.
    + cbn [String_includes] in Hin. rewrite Hs in Hin. cbn [orb] in Hin.
      destruct (IH Hin) as (pre & post & -> & Hr & Hmin).
      exists (String c pre), post. split; [reflexivity |]. split.
      * rewrite Hr. reflexivity.
      * intros pre' post' H. destruct pre' as [| d pre'].
        -- exfalso. cbn [append] in H.
           assert (Hs' : String_startsWith (String c (pre ++ p ++ post)) p = true).
           { apply String_startsWith_iff. exists post'. exact H. }
           congruence.
        -- injection H as _ H. specialize (Hmin pre' post' H). cbn. lia.
Qed.

Lemma String_replace_absent (s p r : string) :
  String_includes s p = false -> String_replace s p r = s.
Proof.
  induction s as [| c s IH]; cbn [String_includes String_replace]; intros H;
    apply orb_false_iff in H as [H1 H2]; rewrite H1.
  - reflexivity.
  - rewrite (IH H2). reflexivity.
Qed.

Lemma String_startsWith_common (a b c p : string) :
  (String.length p <= String.length a)%nat ->
  String_startsWith (a ++ b) p = true ->
  String_startsWith (a ++ c) p = true.
Proof.
  revert a. induction p as [| x p IH]; intros a Hlen H; [reflexivity |].
  destruct a as [| y a]; [cbn in Hlen; lia |].
  cbn in H |- *. apply andb_true_iff in H as [H1 H2].
  rewrite H1. cbn. apply (IH a); [cbn in Hlen; lia | exact H2].
Qed.

(** ** The download redirect *)

(** X7. For a document stored with an http(s) URL and a request that is not
    [inline=true], the route redirects to the stored URL with
    [fl_attachment/] inserted after its first [/upload/], and to the stored
    URL itself when it has no [/upload/]; nothing before the end of that
    first [/upload/] is changed. *)
Theorem X7_download_redirect (inline : option string)
    (r : Download.row) (rest : list Download.row) :
  String_startsWith (Download.file_path r) "http://"
    || String_startsWith (Download.file_path r) "https://" = true ->
  inline <> Some "true" ->
  exists target,
    Download.handler inline (Rows (r :: rest)) = Download.Redirect target /\
    (String_includes (Download.file_path r) "/upload/" = false ->
     target = Download.file_path r) /\
    (String_includes (Download.file_path r) "/upload/" = true ->
     exists pre post,
       Download.file_path r = (pre ++ "/upload/" ++ post)%string /\
       target = (pre ++ "/upload/fl_attachment/" ++ post)%string /\
       forall pre' post',
         Download.file_path r = (pre' ++ "/upload/" ++ post')%string ->
         (String.length pre <= String.length pre')%nat).
Proof.
  intros Hs Hi. apply strictEq_false in Hi.
  exists (Download.downloadUrl (Download.file_path r)).
  split; [unfold Download.handler; rewrite Hs, Hi; reflexivity |].
  unfold Download.downloadUrl. split; intros Hinc; rewrite Hinc.
  - reflexivity.
  - apply String_replace_first. exact Hinc.
Qed.

Lemma X7_download_redirect_witness :
  exists target,
    Download.handler None
      (Rows [Download.mkRow
               "https://res.cloudinary.com/demo/raw/upload/v1/a/upload/b.pdf"
               "b.pdf"])
    = Download.Redirect target /\
    target
    = "https://res.cloudinary.com/demo/raw/upload/fl_attachment/v1/a/upload/b.pdf".
Proof.
  destruct (X7_download_redirect None
              (Download.mkRow
                 "https://res.cloudinary.com/demo/raw/upload/v1/a/upload/b.pdf"
                 "b.pdf") [] eq_refl ltac:(discriminate))
    as (target & Hh & _ & Hinc).
  exists target. split; [exact Hh |].
  injection Hh as <-. reflexivity.
Defined.

(** X8. Whatever the query string, a redirect issued for a stored http(s)
    URL goes to a URL of the same scheme. *)
Theorem X8_redirect_keeps_scheme (inline : option string)
    (r : Download.row) (rest : list Download.row) (scheme : string) :
  scheme = "http://" \/ scheme = "https://" ->
  String_startsWith (Download.file_path r) scheme = true ->
  exists target,
    Download.handler inline (Rows (r :: rest)) = Download.Redirect target /\
    String_startsWith target scheme = true.
Proof.
  intros Hsch Hs.
  assert (Hg : String_startsWith (Download.file_path r) "http://"
               || String_startsWith (Download.file_path r) "https://" = true).
  { destruct Hsch; subst scheme; rewrite Hs; [reflexivity | apply orb_true_r]. }
  unfold Download.handler. rewrite Hg.
  destruct (strictEq inline "true"); [eexists; split; [reflexivity | exact Hs] |].
  eexists. split; [reflexivity |].
  unfold Download.downloadUrl.
  destruct (String_includes (Download.file_path r) "/upload/") eqn:Hinc;
    [| exact Hs].
  destruct (String_replace_first _ _ "/upload/fl_attachment/" Hinc)
    as (pre & post & Hu & -> & _).
  rewrite Hu in Hs.
  change ("/upload/fl_attachment/" ++ post)%string
    with ("/upload/" ++ "fl_attachment/" ++ post)%string.
  rewrite <- append_assoc in Hs |- *.
  apply (String_startsWith_common _ post); [| exact Hs].
  rewrite append_length. destruct Hsch; subst scheme; cbn; lia.
Qed.

Lemma X8_redirect_keeps_scheme_witness :
  exists target,
    Download.handler (Some "false")
      (Rows [Download.mkRow "http://upload/x.pdf" "x.pdf"])
    = Download.Redirect target /\
    String_startsWith target "http://" = true.
Proof.
  apply (X8_redirect_keeps_scheme (Some "false")
           (Download.mkRow "http://upload/x.pdf" "x.pdf") [] "http://").
  - left. reflexivity.
  - reflexivity.
Defined.

(** ** Documents grouped by form *)

Module DocumentsFacts.
Import Documents.

Lemma own_set (o : object) (k f : string) (v : list document) :
  own (set o k v) f = if (k =? f)%string then Some v else own o f.
Proof.
  induction o as [| [k' v'] o IH]; cbn [set own].
  - reflexivity.
  - destruct (k' =? k)%string eqn:Hk; cbn [own].
    + apply String.eqb_eq in Hk. subst k'.
      destruct (k =? f)%string; reflexivity.
    + destruct (k' =? f)%string eqn:Hf.
      * apply String.eqb_eq in Hf. subst k'. rewrite String.eqb_sym, Hk.
        reflexivity.
      * exact IH.
Qed.

Lemma keys_set (o : object) (k : string) (v : list document) :
  map fst (set o k v)
  = match own o k with
    | Some _ => map fst o
    | None => (map fst o ++ [k])%list
    end.
Proof.
  induction o as [| [k' v'] o IH]; cbn [set own map fst app].
  - reflexivity.
  - destruct (k' =? k)%string; cbn [map fst]; [reflexivity |].
    rewrite IH. destruct (own o k); reflexivity.
Qed.

Lemma own_None_keys (o : object) (k : string) :
  own o k = None <-> ~ In k (map fst o).
Proof.
  induction o as [| [k' v'] o IH]; cbn [own map fst In].
  - tauto.
  - destruct (k' =? k)%string eqn:Hk.
    + apply String.eqb_eq in Hk. split; [discriminate | tauto].
    + apply String.eqb_neq in Hk. tauto.
Qed.

(** What one round of the [forEach] callback does to the object. *)
Lemma addRow_cases (o : object) (row : DocumentRow.t) :
  match own o (DocumentRow.form_name row) with
  | Some v =>
      addRow o row
      = Normal (set o (DocumentRow.form_name row) (v ++ [toDocument row])%list)
  | None =>
      if inherited (DocumentRow.form_name row)
      then exists e, addRow o row = Throw e
      else addRow o row
           = Normal (set (set o (DocumentRow.form_name row) [])
                       (DocumentRow.form_name row) [toDocument row])
  end.
Proof.
  unfold addRow, get.
  destruct (own o (DocumentRow.form_name row)) as [v |] eqn:Ho.
  - rewrite Ho. reflexivity.
  - destruct (inherited (DocumentRow.form_name row)) eqn:Hi.
    + rewrite Ho. eexists. reflexivity.
    + rewrite own_set, String.eqb_refl. reflexivity.
Qed.

Lemma documentsOfForm_cons (f : string) (row : DocumentRow.t) (rows : list DocumentRow.t) :
  documentsOfForm f (row :: rows)
  = if (DocumentRow.form_name row =? f)%string
    then toDocument row :: documentsOfForm f rows
    else documentsOfForm f rows.
Proof.
  unfold documentsOfForm. cbn [filter].
  destruct (DocumentRow.form_name row =? f)%string; reflexivity.
Qed.

Lemma forEachRow_spec (rows : list DocumentRow.t) (o : object) :
  wellFormed o ->
  if existsb (fun row => inherited (DocumentRow.form_name row)) rows
  then exists e, forEachRow rows o = Throw e
  else exists o', forEachRow rows o = Normal o' /\
                  wellFormed o' /\ grouped o rows o'.
Proof.
  revert o. induction rows as [| row rows IH]; intros o (Hnd & Hinh & Hne).
  - cbn [existsb forEachRow]. exists o. split; [reflexivity |].
    split; [repeat split; assumption |].
    intros f. unfold documentsOfForm. cbn [filter map].
    destruct (own o f) as [v |]; [rewrite app_nil_r |]; reflexivity.
  - cbn [existsb forEachRow].
    pose proof (addRow_cases o row) as Ha.
    destruct (inherited (DocumentRow.form_name row)) eqn:Hi; cbn [orb].
    + rewrite (Hinh _ Hi) in Ha. destruct Ha as [e ->].
      exists e. reflexivity.
    + set (k := DocumentRow.form_name row) in *.
      assert (Hstep : exists o1,
                 addRow o row = Normal o1 /\ wellFormed o1 /\
                 forall f, own o1 f
                           = if (k =? f)%string
                             then Some (match own o k with
                                        | Some v => v
                                        | None => []
                                        end ++ [toDocument row])%list
                             else own o f).
      { destruct (own o k) as [v |] eqn:Ho.
        - eexists. split; [exact Ha |]. split.
          + split; [| split].
            * rewrite keys_set, Ho. exact Hnd.
            * intros k' Hk'. rewrite own_set.
              destruct (k =? k')%string eqn:E; [| apply Hinh; exact Hk'].
              apply String.eqb_eq in E. subst k'. congruence.
            * intros k'. rewrite own_set.
              destruct (k =? k')%string; [| apply Hne].
              intros H. injection H as H. destruct v; discriminate.
          + intros f. apply own_set.
        - eexists. split; [exact Ha |]. split.
          + split; [| split].
            * rewrite keys_set, own_set, String.eqb_refl, keys_set, Ho.
              apply NoDup_app_remove_l with (l := []). cbn [app].
              apply NoDup_Add with (a := k) (l := map fst o).
              -- clear. induction (map fst o) as [| x l IHl]; cbn [app];
                   constructor. exact IHl.
              -- split; [exact Hnd | apply own_None_keys; exact Ho].
            * intros k' Hk'. rewrite !own_set.
              destruct (k =? k')%string eqn:E; [| apply Hinh; exact Hk'].
              apply String.eqb_eq in E. subst k'. congruence.
            * intros k'. rewrite !own_set.
              destruct (k =? k')%string; [discriminate | apply Hne].
          + intros f. rewrite !own_set.
            destruct (k =? f)%string; reflexivity. }
      destruct Hstep as (o1 & -> & Hwf1 & Hown1). cbn [bind].
      specialize (IH o1 Hwf1).
      destruct (existsb _ rows); [exact IH |].
      destruct IH as (o' & -> & Hwf' & Hg).
      exists o'. split; [reflexivity |]. split; [exact Hwf' |].
      intros f. rewrite (Hg f), Hown1, documentsOfForm_cons.
      fold k. destruct (k =? f)%string eqn:E.
      * apply String.eqb_eq in E. subst f.
        destruct (own o k) as [v |]; cbn [app].
        -- rewrite <- app_assoc. reflexivity.
        -- reflexivity.
      * reflexivity.
Qed.

Lemma groupByForm_spec (rows : list DocumentRow.t) :
  if existsb (fun row => inherited (DocumentRow.form_name row)) rows
  then exists e, groupByForm rows = Throw e
  else exists o, groupByForm rows = Normal o /\
                 wellFormed o /\ grouped [] rows o.
Proof.
  apply forEachRow_spec. repeat split.
  - constructor.
  - intros k H. discriminate.
Qed.

Lemma inherited_iff (k : string) :
  inherited k = true <-> In k Object_prototype_keys.
Proof.
  unfold inherited. rewrite existsb_exists. split.
  - intros (x & Hx & E). apply String.eqb_eq in E. subst x. exact Hx.
  - intros H. exists k. split; [exact H | apply String.eqb_refl].
Qed.

End DocumentsFacts.

(** X9. The route for a client's documents dies with an uncaught TypeError
    exactly when one of the client's documents belongs to a form whose name
    is a member of [Object.prototype] (such as "constructor" or
    "toString"); otherwise it answers with JSON. *)
Theorem X9_prototype_form_name_is_uncaught (rows : list Documents.DocumentRow.t) :
  (exists e, Documents.handler (Rows rows) = Documents.Uncaught e) <->
  (exists row, In row rows /\
               In (Documents.DocumentRow.form_name row)
                  Documents.Object_prototype_keys).
Proof.
  pose proof (DocumentsFacts.groupByForm_spec rows) as H.
  unfold Documents.handler.
  destruct (existsb _ rows) eqn:Hex.
  - destruct H as [e ->]. split.
    + intros _. apply existsb_exists in Hex as (row & Hin & Hi).
      exists row. split; [exact Hin |].
      apply DocumentsFacts.inherited_iff. exact Hi.
    + intros _. exists e. reflexivity.
  - destruct H as (o & -> & _). split.
    + intros [e He]. discriminate.
    + intros (row & Hin & Hk). exfalso.
      apply DocumentsFacts.inherited_iff in Hk.
      assert (existsb (fun row => Documents.inherited
                                    (Documents.DocumentRow.form_name row)) rows = true)
        by (apply existsb_exists; exists row; split; assumption).
      congruence.
Qed.

(** X10. When the route answers with JSON, the object has one property per
    form that has a document of the client, no property twice, and the
    property of a form is the array of exactly that form's documents, in
    the order of the rows of the query; a form without documents has no
    property. *)
Theorem X10_documents_grouped_by_form (rows : list Documents.DocumentRow.t)
    (documentsByForm : Documents.object) :
  Documents.handler (Rows rows) = Documents.Json documentsByForm ->
  NoDup (map fst documentsByForm) /\
  forall f,
    Documents.own documentsByForm f
    = match documentsOfForm f rows with
      | [] => None
      | docs => Some docs
      end.
Proof.
  pose proof (DocumentsFacts.groupByForm_spec rows) as H.
  unfold Documents.handler.
  destruct (existsb _ rows).
  - destruct H as [e ->]. discriminate.
  - destruct H as (o & -> & (Hnd & _) & Hg). intros E. injection E as <-.
    split; [exact Hnd |]. intros f. rewrite (Hg f). cbn [Documents.own].
    reflexivity.
Qed.

Lemma X10_documents_grouped_by_form_witness :
  Documents.handler
    (Rows [Documents.DocumentRow.mk 1 "a.pdf" "https://x/1" "Q1" 2025 0 "BIR Form 1706";
           Documents.DocumentRow.mk 2 "b.pdf" "https://x/2" "Q1" 2025 0 "BIR Form 2552";
           Documents.DocumentRow.mk 3 "c.pdf" "https://x/3" "Q2" 2024 0 "BIR Form 1706"])
  = Documents.Json
      [("BIR Form 1706",
        [Documents.mkDocument 1 "a.pdf" "https://x/1" "Q1" 2025 0;
         Documents.mkDocument 3 "c.pdf" "https://x/3" "Q2" 2024 0]);
       ("BIR Form 2552",
        [Documents.mkDocument 2 "b.pdf" "https://x/2" "Q1" 2025 0])] /\
  NoDup ["BIR Form 1706"; "BIR Form 2552"].
Proof.
  split; [reflexivity |].
  exact (proj1 (X10_documents_grouped_by_form
                  [Documents.DocumentRow.mk 1 "a.pdf" "https://x/1" "Q1" 2025 0
                     "BIR Form 1706";
                   Documents.DocumentRow.mk 2 "b.pdf" "https://x/2" "Q1" 2025 0
                     "BIR Form 2552";
                   Documents.DocumentRow.mk 3 "c.pdf" "https://x/3" "Q2" 2024 0
                     "BIR Form 1706"]
                  _ eq_refl)).
Defined.

(** ** Gross records with their expenses *)

Module GrossRecordsFacts.
Section Join.
Variables (gross_row expense_row : Type).
Variable id : gross_row -> Z.
Variable gross_record_id : expense_row -> Z.

Lemma expensesOf_cons (e : expense_row) (expenseRows : list expense_row)
    (r : gross_row) :
  GrossRecords.expensesOf id gross_record_id (e :: expenseRows) r
  = if gross_record_id e =? id r
    then e :: GrossRecords.expensesOf id gross_record_id expenseRows r
    else GrossRecords.expensesOf id gross_record_id expenseRows r.
Proof.
  unfold GrossRecords.expensesOf. cbn [filter].
  destruct (gross_record_id e =? id r); reflexivity.
Qed.

Lemma attachExpenses_expenses (grossRows : list gross_row)
    (expenseRows : list expense_row) :
  map GrossRecords.expenses
    (GrossRecords.attachExpenses id gross_record_id grossRows expenseRows)
  = map (GrossRecords.expensesOf id gross_record_id expenseRows) grossRows.
Proof.
  unfold GrossRecords.attachExpenses. rewrite map_map. reflexivity.
Qed.

Lemma attachExpenses_record (grossRows : list gross_row)
    (expenseRows : list expense_row) :
  map GrossRecords.record
    (GrossRecords.attachExpenses id gross_record_id grossRows expenseRows)
  = grossRows.
Proof.
  unfold GrossRecords.attachExpenses. rewrite map_map. cbn. apply map_id.
Qed.

Lemma expense_elsewhere (e : expense_row) (expenseRows : list expense_row)
    (grossRows : list gross_row) :
  ~ In (gross_record_id e) (map id grossRows) ->
  map (GrossRecords.expensesOf id gross_record_id (e :: expenseRows)) grossRows
  = map (GrossRecords.expensesOf id gross_record_id expenseRows) grossRows.
Proof.
  induction grossRows as [| r rs IH]; intros Hn; [reflexivity |].
  cbn [map In] in Hn |- *. rewrite IH by tauto. f_equal.
  rewrite expensesOf_cons.
  destruct (gross_record_id e =? id r) eqn:E; [| reflexivity].
  apply Z.eqb_eq in E. exfalso. apply Hn. left. symmetry. exact E.
Qed.

Lemma expense_once (e : expense_row) (expenseRows : list expense_row)
    (grossRows : list gross_row) :
  NoDup (map id grossRows) ->
  In (gross_record_id e) (map id grossRows) ->
  Permutation
    (List.concat
       (map (GrossRecords.expensesOf id gross_record_id (e :: expenseRows))
          grossRows))
    (e :: List.concat
            (map (GrossRecords.expensesOf id gross_record_id expenseRows)
               grossRows)).
Proof.
  induction grossRows as [| r rs IH]; intros Hnd Hin; [destruct Hin |].
  cbn [map List.concat] in Hnd |- *. inversion Hnd as [| x l Hx Hnd']; subst.
  rewrite expensesOf_cons.
  destruct (gross_record_id e =? id r) eqn:E.
  - apply Z.eqb_eq in E. rewrite expense_elsewhere by (rewrite E; exact Hx).
    reflexivity.
  - apply Z.eqb_neq in E. destruct Hin as [Hin | Hin]; [congruence |].
    rewrite (IH Hnd' Hin). symmetry. apply Permutation_middle.
Qed.

Lemma join_permutation (grossRows : list gross_row)
    (expenseRows : list expense_row) :
  NoDup (map id grossRows) ->
  (forall e, In e expenseRows -> In (gross_record_id e) (map id grossRows)) ->
  Permutation
    (List.concat
       (map (GrossRecords.expensesOf id gross_record_id expenseRows) grossRows))
    expenseRows.
Proof.
  intros Hnd. induction expenseRows as [| e es IH]; intros Hall.
  - replace (List.concat _) with (@nil expense_row); [constructor |].
    clear. induction grossRows as [| r rs IH]; [reflexivity | exact IH].
  - rewrite expense_once; [| exact Hnd | apply Hall; left; reflexivity].
    constructor. apply IH. intros e' He'. apply Hall. right. exact He'.
Qed.

End Join.
End GrossRecordsFacts.

(** X11. When the gross records have distinct ids and the second query
    returns only expenses of those records (its [WHERE gross_record_id IN
    (...)]), the response lists the gross records in the order of the first
    query, and every expense row of the second query is delivered exactly
    once: the [expenses] arrays, put together, are a permutation of the
    rows of the second query. *)
Theorem X11_every_expense_delivered_once
    (gross_row expense_row : Type)
    (id : gross_row -> Z) (gross_record_id : expense_row -> Z)
    (grossRows : list gross_row) (expenseRows : list expense_row)
    (expenseQuery : list Z -> query_rows expense_row) :
  NoDup (map id grossRows) ->
  expenseQuery (map id grossRows) = Rows expenseRows ->
  (forall e, In e expenseRows -> In (gross_record_id e) (map id grossRows)) ->
  exists data,
    GrossRecords.handler id gross_record_id (Rows grossRows) expenseQuery
    = GrossRecords.Json data /\
    map GrossRecords.record data = grossRows /\
    Permutation (List.concat (map GrossRecords.expenses data)) expenseRows.
Proof.
  intros Hnd Hq Hall. destruct grossRows as [| r rs].
  - exists []. split; [reflexivity |]. split; [reflexivity |].
    destruct expenseRows as [| e es]; [constructor |].
    destruct (Hall e (or_introl eq_refl)).
  - eexists. split.
    + unfold GrossRecords.handler. rewrite Hq. reflexivity.
    + split; [apply GrossRecordsFacts.attachExpenses_record |].
      rewrite GrossRecordsFacts.attachExpenses_expenses.
      apply GrossRecordsFacts.join_permutation; assumption.
Qed.

Lemma X11_every_expense_delivered_once_witness :
  exists data,
    GrossRecords.handler fst fst
      (Rows [(7, "January"); (5, "February")])
      (fun _ => Rows [(5, 100); (7, 250); (5, 30)])
    = GrossRecords.Json data /\
    map GrossRecords.record data = [(7, "January"); (5, "February")] /\
    Permutation (List.concat (map GrossRecords.expenses data))
      [(5, 100); (7, 250); (5, 30)].
Proof.
  apply (X11_every_expense_delivered_once (Z * string) (Z * Z) fst fst
           [(7, "January"); (5, "February")] [(5, 100); (7, 250); (5, 30)]).
  - repeat constructor; cbn; intuition discriminate.
  - reflexivity.
  - cbn. intros e [<- | [<- | [<- | []]]]; cbn; tauto.
Defined.

(** ** The upload configuration *)

Module CloudinaryFacts.
Import Cloudinary.

Lemma replaceOutsideClass_inClass (s : string) :
  allChars inClass (replaceOutsideClass s) = true.
Proof.
  induction s as [| c s IH]; [reflexivity |].
  cbn [replaceOutsideClass allChars]. rewrite IH.
  destruct (inClass c) eqn:Hc; [rewrite Hc |]; reflexivity.
Qed.

Lemma replaceOutsideClass_length (s : string) :
  String.length (replaceOutsideClass s) = String.length s.
Proof. induction s as [| c s IH]; cbn; [reflexivity | rewrite IH; reflexivity]. Qed.

Lemma replaceOutsideClass_clean (s : string) :
  allChars inClass s = true -> replaceOutsideClass s = s.
Proof.
  induction s as [| c s IH]; [reflexivity |].
  cbn [replaceOutsideClass allChars]. intros H.
  apply andb_true_iff in H as [Hc Hs]. rewrite Hc, (IH Hs). reflexivity.
Qed.

Lemma allChars_excludes (f : ascii -> bool) (s : string) (c : ascii) :
  allChars f s = true -> f c = false ->
  String_includes s (String c "") = false.
Proof.
  intros Hs Hc. induction s as [| d s IH].
  - reflexivity.
  - cbn [allChars] in Hs. apply andb_true_iff in Hs as [Hd Hs].
    cbn [String_includes String_startsWith]. rewrite (IH Hs).
    destruct (Ascii.eqb c d) eqn:E; [| reflexivity].
    apply Ascii.eqb_eq in E. congruence.
Qed.

Lemma allChars_app (f : ascii -> bool) (a b : string) :
  allChars f (a ++ b) = allChars f a && allChars f b.
Proof.
  induction a as [| c a IH]; cbn [append allChars]; [reflexivity |].
  rewrite IH. apply andb_assoc.
Qed.

(** [s] ends in an extension: a dot followed by one or more characters none
    of which is a slash or a dot. *)
Lemma extensionHere_iff (s : string) :
  extensionHere s = true <->
  exists ext, s = String "." ext /\ ext <> "" /\ allChars notSlashDot ext = true.
Proof.
  destruct s as [| c r]; cbn [extensionHere].
  - split; [discriminate | intros (ext & H & _); discriminate].
  - rewrite !andb_true_iff, negb_true_iff. split.
    + intros [[Hc Hr] Ha]. apply Ascii.eqb_eq in Hc. subst c.
      exists r. split; [reflexivity |]. split; [| exact Ha].
      intros ->. discriminate.
    + intros (ext & H & Hne & Ha). injection H as -> ->.
      split; [split; [reflexivity |] | exact Ha].
      destruct ext; [congruence | reflexivity].
Qed.

End CloudinaryFacts.

(** X12. The form-name part of the Cloudinary folder is never empty and
    holds only letters, digits, [-] and [_], so no character outside that
    class (a slash, a dot, a space) reaches the folder path through
    [form_name]; a missing or empty name gives [general]; a name is kept
    as it is when it is already clean, and otherwise keeps its length. *)
Theorem X12_form_name_is_sanitized (form_name : option string) :
  Cloudinary.sanitizedFormName form_name <> "" /\
  Cloudinary.allChars Cloudinary.inClass
    (Cloudinary.sanitizedFormName form_name) = true /\
  (forall c, Cloudinary.inClass c = false ->
     String_includes (Cloudinary.sanitizedFormName form_name) (String c "")
     = false) /\
  (truthy form_name = false ->
   Cloudinary.sanitizedFormName form_name = "general") /\
  (forall s, form_name = Some s -> s <> "" ->
     String.length (Cloudinary.sanitizedFormName form_name) = String.length s /\
     (Cloudinary.allChars Cloudinary.inClass s = true ->
      Cloudinary.sanitizedFormName form_name = s)).
Proof.
  assert (Hcls : Cloudinary.allChars Cloudinary.inClass
                   (Cloudinary.sanitizedFormName form_name) = true).
  { destruct form_name as [s |]; [| reflexivity].
    unfold Cloudinary.sanitizedFormName.
    destruct (s =? "")%string; [reflexivity |].
    apply CloudinaryFacts.replaceOutsideClass_inClass. }
  split; [| split; [exact Hcls | split; [| split]]].
  - destruct form_name as [[| c s] |]; discriminate.
  - intros c Hc.
    apply (CloudinaryFacts.allChars_excludes Cloudinary.inClass); assumption.
  - destruct form_name as [[| c s] |]; [reflexivity | discriminate | reflexivity].
  - intros s -> Hs. unfold Cloudinary.sanitizedFormName.
    destruct s as [| c s]; [congruence |]. cbn [String.eqb]. split.
    + apply CloudinaryFacts.replaceOutsideClass_length.
    + apply CloudinaryFacts.replaceOutsideClass_clean.
Qed.

(** X13. The public id is built from the original file name without its
    extension: when the name ends in a dot followed by one or more
    characters that are neither a slash nor a dot, exactly that ending is
    removed (the rest is kept, even when it is empty or has further dots);
    a name with no such ending is kept whole. *)
Theorem X13_only_the_final_extension_is_removed (originalname : string) :
  (exists base ext,
     originalname = (base ++ String "." ext)%string /\
     ext <> "" /\ Cloudinary.allChars Cloudinary.notSlashDot ext = true /\
     Cloudinary.removeExtension originalname = base) \/
  ((forall base ext,
      originalname = (base ++ String "." ext)%string ->
      ext = "" \/ Cloudinary.allChars Cloudinary.notSlashDot ext = false) /\
   Cloudinary.removeExtension originalname = originalname).
Proof.
  induction originalname as [| c s IH].
  - right. split; [| reflexivity].
    intros [| d base] ext H; discriminate.
  - cbn [Cloudinary.removeExtension].
    destruct (Cloudinary.extensionHere (String c s)) eqn:He.
    + left. apply CloudinaryFacts.extensionHere_iff in He
        as (ext & H & Hne & Ha).
      exists "", ext. repeat split; assumption.
    + destruct IH as [(base & ext & -> & Hne & Ha & Hr)
                     | [Hno Hr]].
      * left. exists (String c base), ext. rewrite Hr.
        repeat split; assumption.
      * right. rewrite Hr. split; [| reflexivity].
        intros [| d base] ext H.
        -- cbn [append] in H.
           destruct ext as [| x ext]; [left; reflexivity |]. right.
           destruct (Cloudinary.allChars Cloudinary.notSlashDot (String x ext))
             eqn:Ha; [| reflexivity].
           assert (Cloudinary.extensionHere (String c s) = true).
           { apply CloudinaryFacts.extensionHere_iff.
             exists (String x ext). repeat split; [exact H | discriminate | exact Ha]. }
           congruence.
        -- injection H as _ H. exact (Hno base ext H).
Qed.

(** X14. Every file the filter of the upload accepts is stored with resource
    type [image] (the four image types) or [raw] (every other accepted
    type): [video] and the initial [auto] are never used for an accepted
    file. *)
Theorem X14_accepted_files_are_image_or_raw (dateNow : Z)
    (client_id form_name quarter year : option string)
    (mimetype originalname : string) :
  Cloudinary.fileFilter mimetype = true ->
  Cloudinary.resource_type
    (Cloudinary.params dateNow client_id form_name quarter year
       mimetype originalname)
  = if existsb (String.eqb mimetype)
         ["image/jpeg"; "image/jpg"; "image/png"; "image/gif"]
    then "image" else "raw".
Proof.
  unfold Cloudinary.fileFilter. intros H.
  apply existsb_exists in H as (m & Hin & E).
  apply String.eqb_eq in E. subst m.
  unfold Cloudinary.allowedMimes in Hin. cbn [In] in Hin.
  repeat (destruct Hin as [<- | Hin]; [reflexivity |]).
  destruct Hin.
Qed.

Lemma X14_accepted_files_are_image_or_raw_witness :
  Cloudinary.resource_type
    (Cloudinary.params 1738324800000 (Some "12") (Some "BIR Form 1706")
       (Some "1") (Some "2025") "application/pdf" "return 2025.v2.pdf")
  = "raw".
Proof.
  exact (X14_accepted_files_are_image_or_raw 1738324800000 (Some "12")
           (Some "BIR Form 1706") (Some "1") (Some "2025")
           "application/pdf" "return 2025.v2.pdf" eq_refl).
Defined.
